(** * dev-toolkit: the spreadsheet parsing service of [tools/api-runner.js]

    The development embeds the [/api/parseExcel] route of the Koa service:
    the row mapper ([rows.slice(0, 10).map(...).filter(...)]), first as a
    function on lists and finite maps, then over an explicit store of arrays
    and objects; the validation branches of the handler with the status Koa
    answers; and the clean-up of the uploaded temporary file.

    The mapping configuration [./schemas/materials-mapping] is not part of
    the sources at hand.  The mapper takes it as a record [MaterialsConfig]:
    [fieldMapping] is the finite map of the table's own entries (what a
    label would inherit from [Object.prototype] is outside the model), and
    [convertValue] is a function from the raw cell value and the field name
    to the converted value, without effects of its own. *)

From Stdlib Require Import ZArith Ascii String Floats.SpecFloat.
From stdpp Require Import gmap strings list fin_maps.

Open Scope string_scope.

(** ** JavaScript values *)

(** A JavaScript number is an IEEE 754 binary64; [spec_float] is the
    Standard Library's inductive view of it (two zeros, infinities, NaN,
    finite values [m * 2^e]). *)
Abbreviation number := spec_float.

(** The primitive values a spreadsheet cell or a converted field holds. *)
Inductive value : Type :=
  | Undefined
  | Null
  | Bool (b : bool)
  | Num (n : number)
  | Str (s : string).

(** The number literal [0]. *)
Definition zero : number := S754_zero false.

(** [n]: the binary64 nearest to the integer [n] (a number literal). *)
Definition lit (n : Z) : number := binary_normalize 53 1024 n 0 false.

(** [n / d] for integer literals: the binary64 nearest to the quotient, as
    the decimal literal [0.13] is [13 / 100]. *)
Definition ratio (n d : Z) : number := SFdiv 53 1024 (lit n) (lit d).

(** [x === y] on primitives: numbers compare as IEEE 754 does ([0] equals
    [-0], NaN equals nothing), values of different types are different. *)
Definition strict_eq (x y : value) : bool :=
  match x, y with
  | Undefined, Undefined => true
  | Null, Null => true
  | Bool a, Bool b => eqb a b
  | Num a, Num b => SFeqb a b
  | Str a, Str b => String.eqb a b
  | _, _ => false
  end.

(** [x !== y]. *)
Definition strict_neq (x y : value) : bool := negb (strict_eq x y).

(** Truthiness of a string, as [if (dbField)] tests it: every string but the
    empty one. *)
Definition truthy (s : string) : bool := negb (String.eqb s "").

(** ** The mapping configuration *)

(** What [require('./schemas/materials-mapping')] exports, as far as the
    route uses it: the table from header label to field name and the
    conversion function [convertValue(rawValue, dbField)]. *)
Record MaterialsConfig : Type := {
  fieldMapping : gmap string string;
  convertValue : value -> string -> value
}.

(** ** The row mapper *)

(** An object literal with string keys, such as [rowData]. *)
Abbreviation record := (gmap string value).

(** [row[colIndex]]: reading past the end of an array yields [undefined]. *)
Definition cell (row : list value) (colIndex : nat) : value :=
  default Undefined (row !! colIndex).

(** [item.name]: reading a property the object lacks yields [undefined]. *)
Definition prop (item : record) (name : string) : value :=
  default Undefined (item !! name).

(** [const dbField = materialsConfig.fieldMapping[header]; if (dbField)]:
    the field name when the lookup is truthy. *)
Definition dbField (materialsConfig : MaterialsConfig) (header : string)
  : option string :=
  match fieldMapping materialsConfig !! header with
  | Some f => if truthy f then Some f else None
  | None => None
  end.

(** The body of the callback of [headers.forEach], for one column. *)
Definition visitHeader (materialsConfig : MaterialsConfig)
    (row : list value) (header : string) (colIndex : nat)
    (rowData : record) : record :=
  match dbField materialsConfig header with
  | Some f =>
      let rawValue := cell row colIndex in
      <[f := convertValue materialsConfig rawValue f]> rowData
  | None => rowData
  end.

(** [headers.forEach((header, colIndex) => ...)] from column [colIndex] on,
    threading [rowData]. *)
Fixpoint forEachHeader (materialsConfig : MaterialsConfig)
    (row : list value) (headers : list string) (colIndex : nat)
    (rowData : record) : record :=
  match headers with
  | [] => rowData
  | header :: rest =>
      forEachHeader materialsConfig row rest (S colIndex)
        (visitHeader materialsConfig row header colIndex rowData)
  end.

(** The callback of [.map]: [rowData] starts as [{}]. *)
Definition mapRow (materialsConfig : MaterialsConfig)
    (headers : list string) (row : list value) : record :=
  forEachHeader materialsConfig row headers 0 ∅.

(** The callback of [.filter]. *)
Definition retained (item : record) : bool :=
  strict_neq (prop item "purchasePrice") Null &&
  strict_neq (prop item "purchasePrice") (Num zero) &&
  strict_neq (prop item "taxRate") Null &&
  strict_neq (prop item "taxRate") (Num zero).

(** The records before the filter: [rows.slice(0, 10).map(...)]. *)
Definition mappedRows (materialsConfig : MaterialsConfig)
    (headers : list string) (rows : list (list value)) : list record :=
  map (mapRow materialsConfig headers) (take 10 rows).

(** [const mappedData = rows.slice(0, 10).map(...).filter(...)]. *)
Definition mappedData (materialsConfig : MaterialsConfig)
    (headers : list string) (rows : list (list value)) : list record :=
  List.filter retained (mappedRows materialsConfig headers rows).

(** ** A configuration for the examples *)

Module MaterialsMapping.

(** Modelled from the spec: [./schemas/materials-mapping] is missing from
    the sources.  The table holds the four header labels of the spec's
    scenario with the field names the scenario gives them. *)
Definition fieldMapping : gmap string string :=
  <["产品编码" := "productCode"]>
  (<["产品名称" := "productName"]>
  (<["采购价" := "purchasePrice"]>
  (<["税点" := "taxRate"]> ∅))).

Definition isNumericField (f : string) : bool :=
  String.eqb f "purchasePrice" || String.eqb f "taxRate".

Definition isDigit (c : ascii) : bool :=
  let n := nat_of_ascii c in (48 <=? n)%nat && (n <=? 57)%nat.

Definition isSpace (c : ascii) : bool :=
  let n := nat_of_ascii c in
  (n =? 32)%nat || ((9 <=? n)%nat && (n <=? 13)%nat).

Fixpoint trimStart (s : string) : string :=
  match s with
  | String c s' => if isSpace c then trimStart s' else s
  | EmptyString => EmptyString
  end.

Fixpoint trimEnd (s : string) : string :=
  match s with
  | String c s' =>
      match trimEnd s' with
      | EmptyString => if isSpace c then EmptyString else String c EmptyString
      | t => String c t
      end
  | EmptyString => EmptyString
  end.

Definition trim (s : string) : string := trimEnd (trimStart s).

(** The digits of [s] read as a decimal integer, [None] when [s] holds
    anything but digits. *)
Fixpoint digits (s : string) (acc : Z) : option Z :=
  match s with
  | String c s' =>
      if isDigit c
      then digits s' (10 * acc + Z.of_nat (nat_of_ascii c - 48))%Z
      else None
  | EmptyString => Some acc
  end.

Definition parseNumber (s : string) : value :=
  match s with
  | EmptyString => Null
  | _ => match digits s 0 with Some n => Num (lit n) | None => Null end
  end.

(** Modelled from the spec: the conversion contract of section 4.1.  An
    absent cell is [null] for every field; a numeric field keeps a number
    and parses a string, the empty and the non-numeric string giving
    [null]; a string field keeps the trimmed string.  The spec leaves the
    accepted number formats to the configuration: this model reads plain
    decimal integers only. *)
Definition convertValue (rawValue : value) (f : string) : value :=
  match rawValue with
  | Undefined | Null => Null
  | Str s => if isNumericField f then parseNumber (trim s) else Str (trim s)
  | Num n => if isNumericField f
             then match n with S754_nan => Null | _ => Num n end
             else Num n
  | Bool b => if isNumericField f then Null else Bool b
  end.

Definition config : MaterialsConfig :=
  Build_MaterialsConfig fieldMapping convertValue.

End MaterialsMapping.

(** ** The mapper over a store *)

(** The route receives [headers] and [rows] as arrays living in the heap and
    builds new arrays and objects.  This second embedding of the same
    expression keeps the store explicit, with the aliasing the source has:
    [rows] holds references to the row arrays, the result holds references
    to the [rowData] objects. *)

Abbreviation loc := positive.

(** What an array element or a property holds: a primitive or a reference. *)
Inductive hvalue : Type :=
  | Prim (v : value)
  | Ref (l : loc).

Inductive object : Type :=
  | ArrayObj (elements : list hvalue)
  | PlainObj (properties : gmap string hvalue).

Abbreviation heap := (gmap loc object).

(** A computation over the heap; [None] is a step this model does not cover
    (a [TypeError], or a value of a kind the sheet parser never yields). *)
Definition Exec (A : Type) : Type := heap -> option (A * heap).

#[global] Instance Exec_ret : MRet Exec := fun A a h => Some (a, h).
#[global] Instance Exec_bind : MBind Exec := fun A B f m h =>
  match m h with
  | Some (a, h') => f a h'
  | None => None
  end.

Definition abort {A : Type} : Exec A := fun _ => None.

(** [[]] or [{}] or any other allocation: a fresh location. *)
Definition alloc (o : object) : Exec loc := fun h =>
  let l := fresh (dom h) in Some (l, <[l := o]> h).

(** [a.length]. *)
Definition lengthOf (a : loc) : Exec nat := fun h =>
  match h !! a with
  | Some (ArrayObj es) => Some (length es, h)
  | _ => None
  end.

(** [a[k]] for an array reference [a]. *)
Definition index (a : loc) (k : nat) : Exec hvalue := fun h =>
  match h !! a with
  | Some (ArrayObj es) => Some (default (Prim Undefined) (es !! k), h)
  | _ => None
  end.

(** [row[colIndex]] where [row] is whatever the array of rows holds. *)
Definition member (row : hvalue) (colIndex : nat) : Exec hvalue :=
  match row with
  | Ref r => index r colIndex
  | Prim _ => abort
  end.

(** [o[name] = v] on a plain object. *)
Definition setProperty (o : loc) (name : string) (v : hvalue) : Exec unit :=
  fun h =>
  match h !! o with
  | Some (PlainObj ps) => Some (tt, <[o := PlainObj (<[name := v]> ps)]> h)
  | _ => None
  end.

(** [item.name]. *)
Definition getProperty (item : hvalue) (name : string) : Exec hvalue :=
  match item with
  | Ref o => fun h =>
      match h !! o with
      | Some (PlainObj ps) => Some (default (Prim Undefined) (ps !! name), h)
      | _ => None
      end
  | Prim _ => abort
  end.

(** [a.slice(0, n)]: a new array with the first [n] elements. *)
Definition slice0 (a : loc) (n : nat) : Exec loc := fun h =>
  match h !! a with
  | Some (ArrayObj es) => alloc (ArrayObj (take n es)) h
  | _ => None
  end.

(** The loop of [a.forEach(cb)]: [n] more elements from index [k]; each
    element is read when its turn comes. *)
Fixpoint forEachFrom (cb : hvalue -> nat -> Exec unit) (a : loc)
    (k n : nat) : Exec unit :=
  match n with
  | O => mret tt
  | S n' => e ← index a k; _ ← cb e k; forEachFrom cb a (S k) n'
  end.

Definition forEach (cb : hvalue -> nat -> Exec unit) (a : loc) : Exec unit :=
  len ← lengthOf a; forEachFrom cb a 0 len.

(** The loop of [a.map(cb)]. *)
Fixpoint mapFrom (cb : hvalue -> Exec hvalue) (a : loc)
    (k n : nat) : Exec (list hvalue) :=
  match n with
  | O => mret []
  | S n' => e ← index a k; v ← cb e; vs ← mapFrom cb a (S k) n'; mret (v :: vs)
  end.

Definition arrayMap (cb : hvalue -> Exec hvalue) (a : loc) : Exec loc :=
  len ← lengthOf a; vs ← mapFrom cb a 0 len; alloc (ArrayObj vs).

(** The loop of [a.filter(p)]. *)
Fixpoint filterFrom (p : hvalue -> Exec bool) (a : loc)
    (k n : nat) : Exec (list hvalue) :=
  match n with
  | O => mret []
  | S n' =>
      e ← index a k; b ← p e; vs ← filterFrom p a (S k) n';
      mret (if b : bool then e :: vs else vs)
  end.

Definition arrayFilter (p : hvalue -> Exec bool) (a : loc) : Exec loc :=
  len ← lengthOf a; vs ← filterFrom p a 0 len; alloc (ArrayObj vs).

(** [x !== y] where [y] is a primitive: a reference differs from all. *)
Definition strict_neq_prim (x : hvalue) (y : value) : bool :=
  match x with
  | Prim v => strict_neq v y
  | Ref _ => true
  end.

(** The callback of [headers.forEach] at the store level.  Header labels
    are strings; [convertValue] reads primitives. *)
Definition visitHeaderExec (materialsConfig : MaterialsConfig)
    (row : hvalue) (rowData : loc) (header : hvalue) (colIndex : nat)
  : Exec unit :=
  match header with
  | Prim (Str h) =>
      match dbField materialsConfig h with
      | Some f =>
          rawValue ← member row colIndex;
          match rawValue with
          | Prim raw =>
              setProperty rowData f (Prim (convertValue materialsConfig raw f))
          | Ref _ => abort
          end
      | None => mret tt
      end
  | _ => abort
  end.

(** The callback of [.map]: [const rowData = {}; ...; return rowData]. *)
Definition mapRowExec (materialsConfig : MaterialsConfig)
    (headers : loc) (row : hvalue) : Exec hvalue :=
  rowData ← alloc (PlainObj ∅);
  _ ← forEach (visitHeaderExec materialsConfig row rowData) headers;
  mret (Ref rowData).

(** The callback of [.filter]. *)
Definition retainedExec (item : hvalue) : Exec bool :=
  purchasePrice ← getProperty item "purchasePrice";
  taxRate ← getProperty item "taxRate";
  mret (strict_neq_prim purchasePrice Null &&
        strict_neq_prim purchasePrice (Num zero) &&
        strict_neq_prim taxRate Null &&
        strict_neq_prim taxRate (Num zero)).

(** [rows.slice(0, 10).map(...).filter(...)] over the store. *)
Definition mappedDataExec (materialsConfig : MaterialsConfig)
    (headers rows : loc) : Exec loc :=
  sliced ← slice0 rows 10;
  mapped ← arrayMap (mapRowExec materialsConfig headers) sliced;
  arrayFilter retainedExec mapped.

(** How a heap holds the mapper's inputs and output. *)
Definition holdsHeaders (h : heap) (a : loc) (headers : list string) : Prop :=
  h !! a = Some (ArrayObj ((fun s => Prim (Str s)) <$> headers)).

Definition holdsRow (h : heap) (a : loc) (row : list value) : Prop :=
  h !! a = Some (ArrayObj (Prim <$> row)).

Definition holdsRows (h : heap) (a : loc) (rows : list (list value)) : Prop :=
  exists ls : list loc,
    h !! a = Some (ArrayObj (Ref <$> ls)) /\ Forall2 (holdsRow h) ls rows.

Definition holdsRecord (h : heap) (o : loc) (item : record) : Prop :=
  h !! o = Some (PlainObj (Prim <$> item)).

Definition holdsRecords (h : heap) (a : loc) (items : list record) : Prop :=
  exists ls : list loc,
    h !! a = Some (ArrayObj (Ref <$> ls)) /\ Forall2 (holdsRecord h) ls items.

(** ** The route [POST /api/parseExcel] *)

(** The result of a call that may throw; [Throw] carries [error.message]. *)
Inductive outcome (A : Type) : Type :=
  | Return (a : A)
  | Throw (message : string).
Arguments Return {A} a.
Arguments Throw {A} message.

(** The contents of a file. *)
Abbreviation buffer := string (only parsing).

(** The disk: the files that exist, by path. *)
Abbreviation disk := (gmap string string) (only parsing).

(** [ctx.request.files.excelFile], as the upload middleware fills it in. *)
Record UploadedFile : Type := {
  originalFilename : string;
  mimetype : string;
  size : N;
  filepath : string
}.

(** A sheet of the parsed workbook: [sheet.data] is an array of rows. *)
Record Sheet : Type := {
  name : string;
  data : list (list value)
}.

(** What the route uses and the sources do not define: the parser of
    [node-xlsx], and the text of a number when a header cell that holds one
    is used as a property key. *)
Record Platform : Type := {
  xlsx_parse : buffer -> outcome (list Sheet);
  numberToString : number -> string
}.

(** [fieldMapping[header]] turns [header] into a property key first. *)
Definition propertyKey (platform : Platform) (header : value) : string :=
  match header with
  | Undefined => "undefined"
  | Null => "null"
  | Bool true => "true"
  | Bool false => "false"
  | Num n => numberToString platform n
  | Str s => s
  end.

(** [ctx.body]: the error object [{ success, message }] or the array. *)
Inductive Body : Type :=
  | ErrorBody (success : bool) (message : string)
  | DataBody (mappedData : list record).

(** The Koa context as the handler leaves it: [status] is [Some] once
    [ctx.status] has been assigned. *)
Record Context : Type := {
  status : option nat;
  body : option Body
}.

(** The status Koa sends: the assigned one; else 200 once a body is set
    (assigning [ctx.body] turns the default 404 into 200). *)
Definition responseStatus (ctx : Context) : nat :=
  match status ctx with
  | Some code => code
  | None => match body ctx with Some _ => 200 | None => 404 end
  end.

Definition allowedTypes : list string :=
  [ "application/vnd.ms-excel";
    "application/vnd.openxmlformats-officedocument.spreadsheetml.sheet";
    "application/octet-stream" ].

Definition includes (l : list string) (s : string) : bool :=
  existsb (String.eqb s) l.

Definition lowerAscii (c : ascii) : ascii :=
  let n := nat_of_ascii c in
  if (65 <=? n)%nat && (n <=? 90)%nat then ascii_of_nat (n + 32) else c.

Fixpoint lower (s : string) : string :=
  match s with
  | String c s' => String (lowerAscii c) (lower s')
  | EmptyString => EmptyString
  end.

Definition endsWith (s suffix : string) : bool :=
  let n := String.length s in
  let m := String.length suffix in
  (m <=? n)%nat && String.eqb (String.substring (n - m) m s) suffix.

(** [/\.(xlsx?|csv)$/i.test(name)]. *)
Definition hasExcelExtension (name : string) : bool :=
  let l := lower name in
  endsWith l ".xlsx" || endsWith l ".xls" || endsWith l ".csv".

Definition isValidExcel (file : UploadedFile) : bool :=
  includes allowedTypes (mimetype file) ||
  hasExcelExtension (originalFilename file).

Definition maxSize : N := 10 * 1024 * 1024.

(** [fs.readFileSync(path)]. *)
Definition readFileSync (d : disk) (path : string) : outcome buffer :=
  match d !! path with
  | Some b => Return b
  | None => Throw "ENOENT: no such file or directory"
  end.

(** [fs.existsSync(path)]. *)
Definition existsSync (d : disk) (path : string) : bool :=
  bool_decide (is_Some (d !! path)).

(** [fs.unlinkSync(path)] on an existing file. *)
Definition unlinkSync (d : disk) (path : string) : disk := delete path d.

(** [if (tempFilePath && fs.existsSync(tempFilePath)) fs.unlinkSync(...)]. *)
Definition cleanup (tempFilePath : option string) (d : disk) : disk :=
  match tempFilePath with
  | Some path => if existsSync d path then unlinkSync d path else d
  | None => d
  end.

Definition reject (code : option nat) (message : string) : Context :=
  {| status := code; body := Some (ErrorBody false message) |}.

(** The [catch] block. *)
Definition catch (tempFilePath : option string) (message : string)
    (d : disk) : Context * disk :=
  (reject (Some 500) message, cleanup tempFilePath d).

(** The handler: the request's file and the disk in, the context and the
    disk out.  Logging is left out. *)
Definition parseExcel (platform : Platform) (materialsConfig : MaterialsConfig)
    (excelFile : option UploadedFile) (d : disk) : Context * disk :=
  match excelFile with
  | None => (reject (Some 400) "请上传Excel文件", d)
  | Some file =>
      if negb (isValidExcel file) then
        (reject (Some 400) "请上传有效的Excel文件（.xlsx, .xls 或 .csv）", d)
      else if (maxSize <? size file)%N then
        (reject (Some 400) "文件过大，最大支持 10MB", d)
      else
        let tempFilePath := Some (filepath file) in
        match readFileSync d (filepath file) with
        | Throw message => catch tempFilePath message d
        | Return contents =>
            match xlsx_parse platform contents with
            | Throw message => catch tempFilePath message d
            | Return workbook =>
                match workbook !! 0%nat with
                | None => (reject None "Excel文件为空", d)
                | Some sheet =>
                    match data sheet with
                    | [] => (reject None "Excel文件为空", d)
                    | headers :: rows =>
                        let mappedData :=
                          mappedData materialsConfig
                            (propertyKey platform <$> headers) rows in
                        ({| status := None;
                            body := Some (DataBody mappedData) |},
                         cleanup tempFilePath d)
                    end
                end
            end
        end
  end.

(** The kinds of failure the route distinguishes. *)
Inductive Failure : Type :=
  | MissingFile
  | InvalidFileType
  | FileTooLarge
  | EmptySheet
  | InternalParseError.

(** Which failure, if any, a request runs into, read off the handler's
    branches in their order. *)
Definition failureOf (platform : Platform) (excelFile : option UploadedFile)
    (d : disk) : option Failure :=
  match excelFile with
  | None => Some MissingFile
  | Some file =>
      if negb (isValidExcel file) then Some InvalidFileType
      else if (maxSize <? size file)%N then Some FileTooLarge
      else
        match readFileSync d (filepath file) with
        | Throw _ => Some InternalParseError
        | Return contents =>
            match xlsx_parse platform contents with
            | Throw _ => Some InternalParseError
            | Return workbook =>
                match workbook !! 0%nat with
                | None => Some EmptySheet
                | Some sheet =>
                    match data sheet with
                    | [] => Some EmptySheet
                    | _ :: _ => None
                    end
                end
            end
        end
  end.

(** ** Statements under test and sample inputs *)

(** The reading of duplicate header labels in which the first occurrence
    decides: the value of the field comes from the first column that
    carries the label. *)
Definition firstOccurrenceWins (materialsConfig : MaterialsConfig)
    (headers : list string) (row : list value) : Prop :=
  forall i header f,
    headers !! i = Some header ->
    (forall j, j < i -> headers !! j <> Some header) ->
    dbField materialsConfig header = Some f ->
    mapRow materialsConfig headers row !! f =
    Some (convertValue materialsConfig (cell row i) f).

(** Twelve rows that all pass the filter. *)
Definition twelveRows : list (list value) :=
  replicate 12 [Str "A1"; Num (lit 10); Num (lit 1)].

(** A store with a sheet: the header row at 1, the array of rows at 2; both
    entries of the array of rows refer to the one row array at 3. *)
Definition storeWithSheet : heap :=
  <[1%positive := ArrayObj [Prim (Str "采购价"); Prim (Str "税点")]]>
  (<[2%positive := ArrayObj [Ref 3%positive; Ref 3%positive]]>
  (<[3%positive := ArrayObj [Prim (Num (lit 3)); Prim (Str "4")]]> ∅)).

(** Another store with the same sheet at other places, each row array on
    its own. *)
Definition storeWithSheetCopy : heap :=
  <[4%positive := ArrayObj [Ref 7%positive; Ref 8%positive]]>
  (<[5%positive := ArrayObj [Prim (Str "采购价"); Prim (Str "税点")]]>
  (<[7%positive := ArrayObj [Prim (Num (lit 3)); Prim (Str "4")]]>
  (<[8%positive := ArrayObj [Prim (Num (lit 3)); Prim (Str "4")]]> ∅))).

(** An upload of a workbook whose first sheet has no row at all. *)
Definition emptySheetUpload : UploadedFile :=
  {| originalFilename := "empty.xlsx";
     mimetype :=
       "application/vnd.openxmlformats-officedocument.spreadsheetml.sheet";
     size := 4096;
     filepath := "uploads/upload_1.xlsx" |}.

Definition emptySheetParser (contents : buffer) : outcome (list Sheet) :=
  Return [ {| name := "Sheet1"; data := [] |} ].

(** An upload that is no spreadsheet. *)
Definition textUpload : UploadedFile :=
  {| originalFilename := "notes.txt";
     mimetype := "text/plain";
     size := 12;
     filepath := "uploads/upload_2.txt" |}.

(** The status the spec asks for each kind of failure: 400 for the caller's
    mistakes, the empty sheet among them, 500 for an internal failure. *)
Definition specifiedStatus (k : Failure) : nat :=
  match k with
  | MissingFile | InvalidFileType | FileTooLarge | EmptySheet => 400
  | InternalParseError => 500
  end.

(** The configuration the examples run on. *)
#[local] Abbreviation config := MaterialsMapping.config.

(** Closes [lhs = rhs] when both sides evaluate to the same value. *)
Ltac by_evaluation :=
  match goal with
  | |- @eq ?A _ ?rhs => vm_cast_no_check (@eq_refl A rhs)
  end.

(** A parser that yields a workbook of two sheets; every header cell holds
    text. *)
Definition twoSheetParser (contents : buffer) : outcome (list Sheet) :=
  Return [ {| name := "Sheet1";
              data := [ [Str "采购价"; Str "税点"];
                        [Num (lit 10); Num (lit 1)] ] |};
           {| name := "Sheet2"; data := [[Str "x"]] |} ].

(** A parser that throws. *)
Definition failingParser (contents : buffer) : outcome (list Sheet) :=
  Throw "Unsupported file".

(** The sample sheets have text in every header cell, so the text of a
    number is never asked for; the sample platforms answer with the empty
    text. *)
Definition textHeadersOnly (n : number) : string := "".

Definition twoSheetPlatform : Platform :=
  {| xlsx_parse := twoSheetParser; numberToString := textHeadersOnly |}.

Definition failingPlatform : Platform :=
  {| xlsx_parse := failingParser; numberToString := textHeadersOnly |}.

(** An upload of a spreadsheet, by its name, of exactly the largest size
    the route accepts. *)
Definition sheetUpload : UploadedFile :=
  {| originalFilename := "Materials.XLSX";
     mimetype := "text/plain";
     size := 10485760;
     filepath := "uploads/upload_3.xlsx" |}.

(** ** The proxy server: [makeRequest] and [POST /api/runFlow] *)

(** A JSON value: what [req.body] holds and what the target answers. *)
#[warnings="-register-all"]
Inductive json : Type :=
  | JNull
  | JBool (b : bool)
  | JNum (n : number)
  | JStr (s : string)
  | JArr (items : list json)
  | JObj (fields : gmap string json).

(** Truthiness of a JSON value: [null], [false], the zeros, NaN and the
    empty string are falsy; arrays and objects are truthy. *)
Definition truthyJson (v : json) : bool :=
  match v with
  | JNull => false
  | JBool b => b
  | JNum (S754_zero _) | JNum S754_nan => false
  | JNum _ => true
  | JStr s => truthy s
  | JArr _ | JObj _ => true
  end.

(** A destructured field that passes [if (!field) return ...]: present and
    truthy. *)
Definition whenTruthy (field : option json) : option json :=
  match field with
  | Some v => if truthyJson v then Some v else None
  | None => None
  end.

Module URL.
(** [new URL(url)], as far as [makeRequest] reads it; [port] is the empty
    string when the URL names none. *)
Record t : Type := {
  protocol : string;
  hostname : string;
  port : string;
  pathname : string;
  search : string
}.
End URL.

(** [urlObj.port || (isHttps ? 443 : 80)]: the text of the URL or a number. *)
Inductive Port : Type :=
  | PortText (text : string)
  | PortNumber (n : nat).

Module RequestOptions.
Record t : Type := {
  hostname : string;
  port : Port;
  path : string;
  method : string;
  headers : gmap string json
}.
End RequestOptions.

Module Options.
(** The second argument of [makeRequest]; each field may be missing. *)
Record t : Type := {
  method : option string;
  headers : option (gmap string json);
  data : option json
}.
End Options.

(** One outbound request: the client chosen ([https] or [http]), the
    options given to [client.request] and what [req.write] was given. *)
Record Sent : Type := {
  secure : bool;
  requestOptions : RequestOptions.t;
  written : option string
}.

(** What [makeRequest] relies on: the URL parser, the exchange with the
    target (the text received up to the [end] event, or the message of the
    [error] event) and the JSON codec. *)
Record Network : Type := {
  newURL : string -> outcome URL.t;
  request : Sent -> outcome string;
  JSON_parse : string -> outcome json;
  JSON_stringify : json -> string
}.

(** [makeRequest(url, options)]: how the promise settles ([Return] when it
    resolves, [Throw] when it is rejected) and the requests sent. *)
Definition makeRequest (net : Network) (url : string) (options : Options.t)
  : outcome json * list Sent :=
  match newURL net url with
  | Throw message => (Throw message, [])
  | Return urlObj =>
      let isHttps := String.eqb (URL.protocol urlObj) "https:" in
      let requestOptions :=
        {| RequestOptions.hostname := URL.hostname urlObj;
           RequestOptions.port :=
             if truthy (URL.port urlObj) then PortText (URL.port urlObj)
             else PortNumber (if isHttps then 443 else 80);
           RequestOptions.path := URL.pathname urlObj ++ URL.search urlObj;
           RequestOptions.method :=
             match Options.method options with
             | Some m => if truthy m then m else "POST"
             | None => "POST"
             end;
           RequestOptions.headers := default ∅ (Options.headers options) |} in
      let written :=
        match whenTruthy (Options.data options) with
        | Some data => Some (JSON_stringify net data)
        | None => None
        end in
      let sent :=
        {| secure := isHttps;
           requestOptions := requestOptions;
           written := written |} in
      match request net sent with
      | Throw message => (Throw message, [sent])
      | Return data =>
          match JSON_parse net data with
          | Return jsonData => (Return jsonData, [sent])
          | Throw _ => (Return (JObj {[ "rawData" := JStr data ]}), [sent])
          end
      end
  end.

(** What the route uses of Node besides the network: [path.resolve] on a
    string, the message of the [TypeError] it throws for another value, and
    the text a template literal gives a value that is no string. *)
Record Node : Type := {
  resolve : string -> string;
  resolveTypeError : json -> string;
  toString : json -> string
}.

(** [path.resolve(dataPath)]. *)
Definition pathResolve (node : Node) (dataPath : json) : outcome string :=
  match dataPath with
  | JStr p => Return (resolve node p)
  | other => Throw (resolveTypeError node other)
  end.

(** [`${v}`]. *)
Definition templateText (node : Node) (v : json) : string :=
  match v with
  | JStr s => s
  | other => toString node other
  end.

(** What Express sends: [res.status(code).json(payload)]. *)
Record Reply : Type := {
  code : nat;
  payload : json
}.

Definition missingParameter (parameter : string) : Reply :=
  {| code := 400;
     payload :=
       JObj {[ "error" := JStr ("Missing " ++ parameter ++ " parameter");
               "message" := JStr ("请在请求体中包含" ++ parameter ++ "字段") ]} |}.

(** The [catch] block of the route. *)
Definition internalServerError (message : string) : Reply :=
  {| code := 500;
     payload := JObj {[ "error" := JStr "Internal server error";
                        "message" := JStr message ]} |}.

(** [{ ...otherData, dataPath, host, data: jsData }], where [otherData] is
    the rest of the body after [dataPath], [hostPre] and [host]. *)
Definition forwardData (body : gmap string json) (dataPath host : json)
    (jsData : string) : gmap string json :=
  let otherData := delete "dataPath" (delete "hostPre" (delete "host" body)) in
  <["data" := JStr jsData]>
    (<["host" := host]> (<["dataPath" := dataPath]> otherData)).

(** The headers of the forwarded request. *)
Definition forwardHeaders (host : json) : gmap string json :=
  <["Content-Type" := JStr "application/json"]>
  (<["Accept" := JStr "*/*"]>
  (<["Host" := host]>
  (<["Connection" := JStr "keep-alive"]> ∅))).

(** The handler of [POST /api/runFlow]: the parsed body and the disk in,
    the reply and the requests sent out.  Logging is left out, but for the
    read of [response.code] in the log line, which throws on [null]. *)
Definition runFlow (node : Node) (net : Network)
    (body : gmap string json) (d : disk) : Reply * list Sent :=
  match whenTruthy (body !! "dataPath") with
  | None => (missingParameter "dataPath", [])
  | Some dataPath =>
  match whenTruthy (body !! "hostPre") with
  | None => (missingParameter "hostPre", [])
  | Some hostPre =>
  match whenTruthy (body !! "host") with
  | None => (missingParameter "host", [])
  | Some host =>
      match pathResolve node dataPath with
      | Throw message => (internalServerError message, [])
      | Return fullPath =>
          if negb (existsSync d fullPath) then
            ({| code := 400;
                payload :=
                  JObj {[ "error" := JStr "File not found";
                          "message" :=
                            JStr ("文件不存在: " ++ templateText node dataPath);
                          "path" := JStr fullPath ]} |}, [])
          else
            match readFileSync d fullPath with
            | Throw message => (internalServerError message, [])
            | Return jsData =>
                let targetUrl :=
                  templateText node hostPre ++ "/api/open/runFlow" in
                let options :=
                  {| Options.method := Some "POST";
                     Options.headers := Some (forwardHeaders host);
                     Options.data :=
                       Some (JObj (forwardData body dataPath host jsData)) |} in
                match makeRequest net targetUrl options with
                | (Throw message, sent) => (internalServerError message, sent)
                | (Return JNull, sent) =>
                    (internalServerError
                       "Cannot read properties of null (reading 'code')", sent)
                | (Return response, sent) =>
                    ({| code := 200; payload := response |}, sent)
                end
            end
      end
  end end end.

(** A Node and a target for the examples: paths resolve under [/srv/]; the
    target answers every request with the text of its written body, and the
    codec knows two texts. *)
Definition sampleNode : Node :=
  {| resolve := fun p => "/srv/" ++ p;
     resolveTypeError := fun _ => "The paths[0] argument must be of type string";
     toString := fun _ => "[object Object]" |}.

Definition echoTarget : Network :=
  {| newURL := fun url =>
       Return {| URL.protocol := "http:"; URL.hostname := "localhost";
                 URL.port := "7098"; URL.pathname := "/api/open/runFlow";
                 URL.search := "" |};
     request := fun sent => Return (default "" (written sent));
     JSON_parse := fun text =>
       if String.eqb text "null" then Return JNull
       else if String.eqb text "{}" then Return (JObj ∅)
       else Throw "Unexpected token";
     JSON_stringify := fun v => "{}" |}.

(** A target that is down. *)
Definition deadTarget : Network :=
  {| newURL := newURL echoTarget;
     request := fun sent => Throw "connect ECONNREFUSED";
     JSON_parse := JSON_parse echoTarget;
     JSON_stringify := JSON_stringify echoTarget |}.

(** A target that answers [null]. *)
Definition nullTarget : Network :=
  {| newURL := newURL echoTarget;
     request := fun sent => Return "null";
     JSON_parse := JSON_parse echoTarget;
     JSON_stringify := JSON_stringify echoTarget |}.

Definition sampleBody : gmap string json :=
  <["dataPath" := JStr "data.js"]>
  (<["hostPre" := JStr "http://localhost:7098"]>
  (<["host" := JStr "localhost"]>
  (<["data" := JStr "from the caller"]>
  (<["flow" := JNum (lit 7)]> ∅)))).

Definition sampleDisk : gmap string string :=
  {[ "/srv/data.js" := "module.exports = {}" ]}.

(** * Properties of the row mapper *)

Section Mapper.

Context (materialsConfig : MaterialsConfig).

Implicit Types (headers : list string) (row : list value).
Implicit Types (rows : list (list value)) (rowData item : record).

(** ** The guard on the table lookup *)

Lemma dbField_Some header f :
  dbField materialsConfig header = Some f <->
  fieldMapping materialsConfig !! header = Some f /\ f <> "".
Proof.
  unfold dbField, truthy.
  destruct (fieldMapping materialsConfig !! header) as [g|];
    [|split; [done | by intros [? _]]].
  destruct (String.eqb_spec g "") as [->|Hne]; simpl.
  - split; [done | by intros [[= <-] ?]].
  - split; [by intros [= <-] | by intros [[= <-] _]].
Qed.

Lemma dbField_unmapped header :
  fieldMapping materialsConfig !! header = None ->
  dbField materialsConfig header = None.
Proof. unfold dbField. by intros ->. Qed.

(** ** One pass over the header row *)

(** A column whose header is not mapped to [f] leaves [rowData[f]] alone. *)
Lemma visitHeader_other row header colIndex rowData f :
  dbField materialsConfig header <> Some f ->
  visitHeader materialsConfig row header colIndex rowData !! f = rowData !! f.
Proof.
  unfold visitHeader. intros Hne.
  destruct (dbField materialsConfig header) as [g|]; [|done].
  apply lookup_insert_ne. congruence.
Qed.

(** A column whose header is mapped to [f] assigns [rowData[f]]. *)
Lemma visitHeader_mapped row header colIndex rowData f :
  dbField materialsConfig header = Some f ->
  visitHeader materialsConfig row header colIndex rowData !! f =
  Some (convertValue materialsConfig (cell row colIndex) f).
Proof. unfold visitHeader. intros ->. apply lookup_insert_eq. Qed.

(** When no header of the pass is mapped to [f], [rowData[f]] is as before. *)
Lemma forEachHeader_untouched row headers colIndex rowData f :
  Forall (fun header => dbField materialsConfig header <> Some f) headers ->
  forEachHeader materialsConfig row headers colIndex rowData !! f =
  rowData !! f.
Proof.
  intros Hall. revert colIndex rowData.
  induction Hall as [|header rest Hhd _ IH]; intros colIndex rowData; simpl.
  - done.
  - rewrite IH. by apply visitHeader_other.
Qed.

(** The last column mapped to [f] decides [rowData[f]]. *)
Lemma forEachHeader_last row headers colIndex rowData i header f :
  headers !! i = Some header ->
  dbField materialsConfig header = Some f ->
  (forall j later, i < j -> headers !! j = Some later ->
                   dbField materialsConfig later <> Some f) ->
  forEachHeader materialsConfig row headers colIndex rowData !! f =
  Some (convertValue materialsConfig (cell row (colIndex + i)) f).
Proof.
  revert colIndex rowData i.
  induction headers as [|first rest IH]; intros colIndex rowData i Hi Hf Hlater.
  - done.
  - destruct i as [|i]; simpl in *.
    + injection Hi as ->.
      rewrite forEachHeader_untouched.
      * rewrite Nat.add_0_r. by apply visitHeader_mapped.
      * apply Forall_lookup_2. intros j later Hj.
        apply (Hlater (S j) later); [lia | done].
    + replace (colIndex + S i) with (S colIndex + i) by lia.
      apply IH; [done | done |].
      intros j later Hij Hj. apply (Hlater (S j) later); [lia | done].
Qed.

(** Every key of the record after the pass was there before or is the
    field of a header of the pass. *)
Lemma forEachHeader_keys row headers colIndex rowData f :
  is_Some (forEachHeader materialsConfig row headers colIndex rowData !! f) ->
  is_Some (rowData !! f) \/
  exists header, header ∈ headers /\ dbField materialsConfig header = Some f.
Proof.
  revert colIndex rowData.
  induction headers as [|first rest IH]; intros colIndex rowData; simpl.
  - by left.
  - intros Hsome. destruct (IH _ _ Hsome) as [Hvisit | (header & Hin & Hf)].
    + destruct (decide (dbField materialsConfig first = Some f)) as [Heq|Hne].
      * right. exists first. split; [apply list_elem_of_here | done].
      * left. by rewrite visitHeader_other in Hvisit.
    + right. exists header. split; [by apply list_elem_of_further | done].
Qed.

(** The pass reads the row at the columns of the header row only. *)
Lemma forEachHeader_agree row row' headers colIndex rowData :
  (forall i, i < length headers ->
             cell row (colIndex + i) = cell row' (colIndex + i)) ->
  forEachHeader materialsConfig row headers colIndex rowData =
  forEachHeader materialsConfig row' headers colIndex rowData.
Proof.
  revert colIndex rowData.
  induction headers as [|first rest IH]; intros colIndex rowData Hagree; simpl.
  - done.
  - assert (visitHeader materialsConfig row first colIndex rowData =
            visitHeader materialsConfig row' first colIndex rowData) as ->.
    { unfold visitHeader.
      destruct (dbField materialsConfig first); [|done].
      specialize (Hagree 0). rewrite Nat.add_0_r in Hagree.
      rewrite Hagree; [done | simpl; lia]. }
    apply IH. intros i Hi.
    replace (S colIndex + i) with (colIndex + S i) by lia.
    apply Hagree. simpl. lia.
Qed.

(** A column mapped to [f] makes [f] a key; its value is the conversion
    of the cell of a column at or after it that is mapped to [f]. *)
Lemma forEachHeader_set row headers colIndex rowData i header f :
  headers !! i = Some header ->
  dbField materialsConfig header = Some f ->
  exists j later,
    i <= j /\ headers !! j = Some later /\
    dbField materialsConfig later = Some f /\
    forEachHeader materialsConfig row headers colIndex rowData !! f =
    Some (convertValue materialsConfig (cell row (colIndex + j)) f).
Proof.
  revert colIndex rowData i header.
  induction headers as [|first rest IH]; intros colIndex rowData i header Hi Hf.
  - done.
  - destruct i as [|i]; simpl in Hi.
    + injection Hi as ->.
      destruct (decide (Forall (fun later =>
                   dbField materialsConfig later <> Some f) rest))
        as [Hnone | Hsome].
      * exists 0, header. repeat split; [done | done |]. simpl.
        rewrite forEachHeader_untouched by done.
        rewrite Nat.add_0_r. by apply visitHeader_mapped.
      * apply not_Forall_Exists in Hsome; [|apply _].
        apply Exists_exists in Hsome as (later & Hin & Hlater).
        apply list_elem_of_lookup in Hin as [i' Hi'].
        assert (dbField materialsConfig later = Some f) as Hdb.
        { destruct (decide (dbField materialsConfig later = Some f));
            [done | by destruct Hlater]. }
        destruct (IH (S colIndex)
                    (visitHeader materialsConfig row header colIndex rowData)
                    i' later Hi' Hdb) as (j & last & Hle & Hj & Hlast & Hval).
        exists (S j), last. repeat split; [lia | done | done |]. simpl.
        rewrite Hval. do 3 f_equal. lia.
    + destruct (IH (S colIndex)
                  (visitHeader materialsConfig row first colIndex rowData)
                  i header Hi Hf) as (j & last & Hle & Hj & Hlast & Hval).
      exists (S j), last. repeat split; [lia | done | done |]. simpl.
      rewrite Hval. do 3 f_equal. lia.
Qed.

(** ** The filter *)

Lemma retained_true item :
  retained item = true <->
  strict_eq (prop item "purchasePrice") Null = false /\
  strict_eq (prop item "purchasePrice") (Num zero) = false /\
  strict_eq (prop item "taxRate") Null = false /\
  strict_eq (prop item "taxRate") (Num zero) = false.
Proof.
  unfold retained, strict_neq.
  rewrite !andb_true_iff, !negb_true_iff. tauto.
Qed.

(** The filter drops a record whose purchase price is [null]. *)
Lemma retained_price_null item :
  item !! "purchasePrice" = Some Null -> retained item = false.
Proof. unfold retained, prop. by intros ->. Qed.

(** The filter drops a record whose purchase price is the number zero,
    of either sign. *)
Lemma retained_price_zero item sign :
  item !! "purchasePrice" = Some (Num (S754_zero sign)) ->
  retained item = false.
Proof. unfold retained, prop. intros ->. by destruct sign. Qed.

(** The filter drops a record whose tax rate is [null]. *)
Lemma retained_tax_null item :
  item !! "taxRate" = Some Null -> retained item = false.
Proof.
  unfold retained, prop. intros ->. simpl.
  by rewrite !andb_false_r.
Qed.

(** The filter drops a record whose tax rate is the number zero. *)
Lemma retained_tax_zero item sign :
  item !! "taxRate" = Some (Num (S754_zero sign)) -> retained item = false.
Proof.
  unfold retained, prop. intros ->. destruct sign; simpl;
    by rewrite !andb_false_r.
Qed.

(** The filter keeps a record that has neither field: [undefined] is
    neither [null] nor [0] for [!==]. *)
Lemma retained_missing item :
  item !! "purchasePrice" = None -> item !! "taxRate" = None ->
  retained item = true.
Proof. unfold retained, prop. by intros -> ->. Qed.

(** ** The whole expression *)

Lemma mappedData_elem item headers rows :
  item ∈ mappedData materialsConfig headers rows <->
  item ∈ mappedRows materialsConfig headers rows /\ retained item = true.
Proof. unfold mappedData. rewrite !list_elem_of_In. apply filter_In. Qed.

(** No record of the output has [null] or the number zero as its purchase
    price or its tax rate. *)
Lemma mappedData_values item headers rows :
  item ∈ mappedData materialsConfig headers rows ->
  prop item "purchasePrice" <> Null /\
  (forall sign, prop item "purchasePrice" <> Num (S754_zero sign)) /\
  prop item "taxRate" <> Null /\
  (forall sign, prop item "taxRate" <> Num (S754_zero sign)).
Proof.
  intros Hitem. apply mappedData_elem in Hitem as [_ Hkept].
  apply retained_true in Hkept as (Hp1 & Hp2 & Ht1 & Ht2).
  repeat split.
  - intros Heq. by rewrite Heq in Hp1.
  - intros sign Heq. rewrite Heq in Hp2. by destruct sign.
  - intros Heq. by rewrite Heq in Ht1.
  - intros sign Heq. rewrite Heq in Ht2. by destruct sign.
Qed.

Lemma mappedRows_elem item headers rows :
  item ∈ mappedRows materialsConfig headers rows ->
  exists row, row ∈ take 10 rows /\ item = mapRow materialsConfig headers row.
Proof.
  unfold mappedRows. rewrite list_elem_of_In, in_map_iff.
  intros (row & <- & Hin). exists row. by rewrite list_elem_of_In.
Qed.

Lemma mappedRows_length headers rows :
  length (mappedRows materialsConfig headers rows) = 10 `min` length rows.
Proof. unfold mappedRows. by rewrite length_map, length_take. Qed.

Lemma filter_length_le {A} (p : A -> bool) (l : list A) :
  length (List.filter p l) <= length l.
Proof. induction l as [|a l IH]; simpl; [lia|]. destruct (p a); simpl; lia. Qed.

Lemma filter_all {A} (p : A -> bool) (l : list A) :
  forallb p l = true -> List.filter p l = l.
Proof.
  induction l as [|a l IH]; simpl; [done|].
  rewrite andb_true_iff. intros [-> Hl]. by rewrite IH.
Qed.

(** With an empty header row every record is [{}], and [{}] passes the
    filter. *)
Lemma mapRow_no_headers row : mapRow materialsConfig [] row = ∅.
Proof. done. Qed.

Lemma mappedData_no_headers rows :
  mappedData materialsConfig [] rows = replicate (10 `min` length rows) ∅.
Proof.
  unfold mappedData, mappedRows.
  rewrite <- (length_take rows 10).
  induction (take 10 rows) as [|row l IH]; simpl; [done|].
  by rewrite IH.
Qed.

End Mapper.

(** * The claims about the row mapper *)

Section MapperClaims.

Context (materialsConfig : MaterialsConfig).

Implicit Types (headers : list string) (row : list value).
Implicit Types (rows : list (list value)) (rowData item : record).

(** C2: an empty header row does not yield the empty sequence.  Every
    data row among the first ten becomes the record [{}], and [{}] passes
    the filter, whatever the configuration: here one data row gives one
    record. *)
Theorem empty_header_row_keeps_rows :
  mappedData materialsConfig [] [[Str "A1"; Num (lit 10); Num (lit 1)]] = [∅].
Proof. by rewrite mappedData_no_headers. Qed.

(** C3: the output is never longer than [min(10, number of data rows)];
    it is computed from the first ten data rows alone; and when all of
    these pass the filter its length is exactly that minimum. *)
Theorem mappedData_at_most_ten headers rows :
  length (mappedData materialsConfig headers rows) <= 10 `min` length rows /\
  mappedData materialsConfig headers rows =
    mappedData materialsConfig headers (take 10 rows) /\
  (forallb retained (mappedRows materialsConfig headers rows) = true ->
   length (mappedData materialsConfig headers rows) = 10 `min` length rows).
Proof.
  split; [|split].
  - rewrite <- (mappedRows_length materialsConfig headers rows).
    apply filter_length_le.
  - unfold mappedData, mappedRows. by rewrite take_take.
  - intros Hall. unfold mappedData. rewrite filter_all by done.
    apply mappedRows_length.
Qed.

(** C4, as amended: among the columns whose header is mapped to a field,
    the last one decides the field's value; with a duplicated label, the
    last occurrence wins. *)
Theorem last_occurrence_wins headers row i header f :
  headers !! i = Some header ->
  fieldMapping materialsConfig !! header = Some f ->
  f <> "" ->
  (forall j later, i < j -> headers !! j = Some later ->
                   fieldMapping materialsConfig !! later <> Some f) ->
  mapRow materialsConfig headers row !! f =
  Some (convertValue materialsConfig (cell row i) f).
Proof.
  intros Hi Hf Hne Hlater. unfold mapRow.
  rewrite (forEachHeader_last materialsConfig row headers 0 ∅ i header f);
    [done | done | by apply dbField_Some |].
  intros j later Hij Hj Hdb. apply dbField_Some in Hdb as [Hdb _].
  by apply (Hlater j later).
Qed.

(** C5: a key of an output record is always the field name that the
    table gives to one of the header labels; a label without an entry
    contributes no key. *)
Theorem keys_come_from_mapped_headers headers rows item f :
  item ∈ mappedData materialsConfig headers rows ->
  is_Some (item !! f) ->
  exists header,
    header ∈ headers /\ fieldMapping materialsConfig !! header = Some f.
Proof.
  intros Hitem Hkey.
  apply mappedData_elem in Hitem as [Hitem _].
  apply mappedRows_elem in Hitem as (row & _ & ->).
  apply forEachHeader_keys in Hkey as [Hempty | (header & Hin & Hdb)].
  - rewrite lookup_empty in Hempty. by destruct Hempty.
  - exists header. split; [done|]. by apply dbField_Some in Hdb as [? _].
Qed.

(** C10: two sequences of data rows that agree, row by row, on every
    column below the length of the header row give the same output. *)
Theorem cells_beyond_headers_ignored headers rows rows' :
  Forall2 (fun row row' =>
             forall i, i < length headers -> cell row i = cell row' i)
          rows rows' ->
  mappedData materialsConfig headers rows =
  mappedData materialsConfig headers rows'.
Proof.
  intros Hrows. unfold mappedData, mappedRows. f_equal.
  apply (Forall2_take _ _ _ 10) in Hrows.
  induction Hrows as [|row row' l l' Hrow _ IH]; simpl; [done|].
  f_equal; [|done].
  apply forEachHeader_agree. intros i Hi. by apply Hrow.
Qed.

(** C9: for a data row among the first ten, every header label that
    occurs in the header row and has an entry in the table is a key of
    the record built for the row, before the filter; the key holds the
    conversion of the raw cell of a column mapped to that field, and of
    [undefined] when the row is too short to have that cell. *)
Theorem mapped_header_always_sets_key headers rows r row i header f :
  r < 10 ->
  rows !! r = Some row ->
  headers !! i = Some header ->
  fieldMapping materialsConfig !! header = Some f ->
  f <> "" ->
  exists item,
    mappedRows materialsConfig headers rows !! r = Some item /\
    is_Some (item !! f) /\
    exists j later,
      i <= j /\ headers !! j = Some later /\
      fieldMapping materialsConfig !! later = Some f /\
      item !! f = Some (convertValue materialsConfig (cell row j) f) /\
      (length row <= j ->
       item !! f = Some (convertValue materialsConfig Undefined f)) /\
      ((forall k other, i < k -> headers !! k = Some other ->
                        fieldMapping materialsConfig !! other <> Some f) ->
       j = i).
Proof.
  intros Hr Hrow Hi Hf Hne.
  exists (mapRow materialsConfig headers row).
  assert (dbField materialsConfig header = Some f) as Hdb
    by by apply dbField_Some.
  destruct (forEachHeader_set materialsConfig row headers 0 ∅ i header f Hi Hdb)
    as (j & later & Hle & Hj & Hlater & Hval).
  simpl in Hval. fold (mapRow materialsConfig headers row) in Hval.
  split; [|split].
  - unfold mappedRows. rewrite list_lookup_fmap, lookup_take_lt by done.
    by rewrite Hrow.
  - by rewrite Hval.
  - exists j, later. apply dbField_Some in Hlater as [Hlater _].
    repeat split; [done..| |].
    + intros Hshort. rewrite Hval. unfold cell.
      by rewrite lookup_ge_None_2.
    + intros Hnone. destruct (decide (j = i)) as [|Hji]; [done|].
      destruct (Hnone j later); [lia | done | done].
Qed.

End MapperClaims.

(** * The mapper on the configuration of the spec *)


(** The scenario of the spec: the first row is kept, the second has no
    purchase price, the third has tax rate [0]. *)
Example scenario_three_rows :
  mappedData config ["产品编码"; "产品名称"; "采购价"; "税点"]
    [ [Str "A1"; Str "Widget"; Num (lit 10); Num (ratio 13 100)];
      [Str "A2"; Str "Gadget"; Str ""; Num (ratio 1 10)];
      [Str "A3"; Str "Gizmo"; Num (lit 5); Num (lit 0)] ] =
  [ <["productCode" := Str "A1"]>
    (<["productName" := Str "Widget"]>
    (<["purchasePrice" := Num (lit 10)]>
    (<["taxRate" := Num (ratio 13 100)]> ∅))) ].
Proof. by_evaluation. Qed.

(** The text [0] in a numeric column is converted before the filter runs
    and the row is dropped. *)
Example scenario_zero_as_text :
  mappedData config ["采购价"; "税点"] [[Num (lit 10); Str " 0 "]] = [].
Proof. by_evaluation. Qed.

(** C1: the filter keeps a record that has no purchase price and no tax
    rate at all.  A sheet without the two columns gives records whose
    [purchasePrice] and [taxRate] are [undefined], and each of them is in
    the output. *)
Theorem record_without_price_is_retained :
  let item :=
    <["productCode" := Str "A1"]> (<["productName" := Str "Widget"]> ∅) in
  mappedData config ["产品编码"; "产品名称"] [[Str "A1"; Str "Widget"]] = [item]
  /\ prop item "purchasePrice" = Undefined
  /\ prop item "taxRate" = Undefined.
Proof. cbv zeta. repeat split; by_evaluation. Qed.

Lemma mappedData_at_most_ten_witness :
  length (mappedData config ["产品编码"; "采购价"; "税点"] twelveRows) = 10.
Proof.
  apply (proj2 (proj2 (mappedData_at_most_ten config
                         ["产品编码"; "采购价"; "税点"] twelveRows))).
  by_evaluation.
Defined.

(** C4: with the label of the purchase price in two columns the record
    holds the value of the second column, so the first occurrence does
    not win. *)
Lemma first_occurrence_does_not_win :
  ~ firstOccurrenceWins config ["采购价"; "采购价"] [Num (lit 1); Num (lit 2)].
Proof.
  intros Hfirst.
  specialize (Hfirst 0 "采购价" "purchasePrice" eq_refl).
  assert (forall j, j < 0 -> ["采购价"; "采购价"] !! j <> Some "采购价") as Hnone
    by (intros j Hj; lia).
  specialize (Hfirst Hnone eq_refl).
  vm_compute in Hfirst. discriminate Hfirst.
Qed.

Lemma last_occurrence_wins_witness :
  mapRow config ["采购价"; "税点"; "采购价"]
    [Num (lit 1); Num (lit 2); Num (lit 3)] !! "purchasePrice" =
  Some (Num (lit 3)).
Proof.
  apply (last_occurrence_wins config ["采购价"; "税点"; "采购价"]
           [Num (lit 1); Num (lit 2); Num (lit 3)] 2 "采购价" "purchasePrice").
  - reflexivity.
  - by_evaluation.
  - discriminate.
  - intros j later Hlt Hj. destruct j as [|[|[|j]]]; [lia | lia | lia |].
    discriminate Hj.
Defined.

Lemma keys_come_from_mapped_headers_witness :
  exists header,
    header ∈ ["备注"; "采购价"; "税点"] /\
    fieldMapping config !! header = Some "purchasePrice".
Proof.
  apply (keys_come_from_mapped_headers config ["备注"; "采购价"; "税点"]
           [[Str "x"; Num (lit 10); Num (lit 1)]]
           (mapRow config ["备注"; "采购价"; "税点"]
              [Str "x"; Num (lit 10); Num (lit 1)])
           "purchasePrice").
  - apply mappedData_elem. split; [|by_evaluation].
    apply list_elem_of_In, in_map, list_elem_of_In, list_elem_of_here.
  - exists (Num (lit 10)). by_evaluation.
Defined.

Lemma cells_beyond_headers_ignored_witness :
  mappedData config ["采购价"; "税点"]
    [[Num (lit 10); Num (lit 1); Str "note"]] =
  mappedData config ["采购价"; "税点"] [[Num (lit 10); Num (lit 1)]].
Proof.
  apply (cells_beyond_headers_ignored config).
  constructor; [|constructor].
  intros i Hi. destruct i as [|[|i]]; [reflexivity | reflexivity |].
  simpl in Hi. lia.
Defined.

Lemma mapped_header_always_sets_key_witness :
  exists item,
    mappedRows config ["采购价"; "税点"] [[Num (lit 10)]] !! 0 = Some item /\
    is_Some (item !! "taxRate") /\
    exists j later,
      1 <= j /\ ["采购价"; "税点"] !! j = Some later /\
      fieldMapping config !! later = Some "taxRate" /\
      item !! "taxRate" = Some (convertValue config (cell [Num (lit 10)] j) "taxRate") /\
      (length [Num (lit 10)] <= j ->
       item !! "taxRate" = Some (convertValue config Undefined "taxRate")) /\
      ((forall k other, 1 < k -> ["采购价"; "税点"] !! k = Some other ->
                        fieldMapping config !! other <> Some "taxRate") ->
       j = 1).
Proof.
  apply (mapped_header_always_sets_key config ["采购价"; "税点"]
           [[Num (lit 10)]] 0 [Num (lit 10)] 1 "税点" "taxRate").
  - lia.
  - reflexivity.
  - reflexivity.
  - by_evaluation.
  - discriminate.
Defined.

(** * The mapper over the store *)

Section Store.

Context (materialsConfig : MaterialsConfig).

Implicit Types (h : heap) (headers : list string) (row : list value).
Implicit Types (rows : list (list value)) (item : record).

(** ** Running a computation *)

Lemma bind_run {A B} (m : Exec A) (f : A -> Exec B) h a h' :
  m h = Some (a, h') -> (m ≫= f) h = f a h'.
Proof. unfold mbind, Exec_bind. by intros ->. Qed.

Lemma alloc_fresh h : h !! fresh (dom h) = None.
Proof. apply not_elem_of_dom, is_fresh. Qed.

Lemma alloc_extends h o : h ⊆ <[fresh (dom h) := o]> h.
Proof. apply insert_subseteq, alloc_fresh. Qed.

(** What a heap holds, a larger heap holds. *)
Lemma holdsHeaders_mono h h' a headers :
  h ⊆ h' -> holdsHeaders h a headers -> holdsHeaders h' a headers.
Proof. unfold holdsHeaders. intros Hsub Ha. by eapply lookup_weaken. Qed.

Lemma holdsRow_mono h h' a row :
  h ⊆ h' -> holdsRow h a row -> holdsRow h' a row.
Proof. unfold holdsRow. intros Hsub Ha. by eapply lookup_weaken. Qed.

Lemma holdsRecord_mono h h' o item :
  h ⊆ h' -> holdsRecord h o item -> holdsRecord h' o item.
Proof. unfold holdsRecord. intros Hsub Ha. by eapply lookup_weaken. Qed.

Lemma holdsRows_mono h h' a rows :
  h ⊆ h' -> holdsRows h a rows -> holdsRows h' a rows.
Proof.
  intros Hsub (ls & Ha & Hrows). exists ls. split.
  - by eapply lookup_weaken.
  - eapply Forall2_impl; [done|]. intros l row. by apply holdsRow_mono.
Qed.

Lemma holdsRecords_mono h h' a items :
  h ⊆ h' -> holdsRecords h a items -> holdsRecords h' a items.
Proof.
  intros Hsub (ls & Ha & Hitems). exists ls. split.
  - by eapply lookup_weaken.
  - eapply Forall2_impl; [done|]. intros l item. by apply holdsRecord_mono.
Qed.

(** ** Reading *)

Lemma index_headers h a headers k header :
  holdsHeaders h a headers -> headers !! k = Some header ->
  index a k h = Some (Prim (Str header), h).
Proof.
  unfold holdsHeaders, index. intros -> Hk.
  by rewrite list_lookup_fmap, Hk.
Qed.

Lemma member_row h a row colIndex :
  holdsRow h a row ->
  member (Ref a) colIndex h = Some (Prim (cell row colIndex), h).
Proof.
  unfold holdsRow, member, index, cell. intros ->.
  rewrite list_lookup_fmap. by destruct (row !! colIndex).
Qed.

Lemma getProperty_record h o item name :
  holdsRecord h o item ->
  getProperty (Ref o) name h = Some (Prim (prop item name), h).
Proof.
  unfold holdsRecord, getProperty, prop. intros ->.
  rewrite lookup_fmap. by destruct (item !! name).
Qed.

(** ** The loop over the header row *)

(** One column: the store changes at [rowData] only, as [visitHeader] says. *)
Lemma visitHeaderExec_run h a headers r row rowData item k header :
  holdsHeaders h a headers -> holdsRow h r row -> holdsRecord h rowData item ->
  visitHeaderExec materialsConfig (Ref r) rowData (Prim (Str header)) k h =
  Some (tt, <[rowData :=
               PlainObj (Prim <$> visitHeader materialsConfig row header k item)]> h).
Proof.
  intros Hheaders Hrow Hitem. unfold visitHeaderExec, visitHeader.
  destruct (dbField materialsConfig header) as [f|].
  - rewrite (bind_run _ _ _ _ _ (member_row h r row k Hrow)).
    unfold setProperty. rewrite Hitem. by rewrite fmap_insert.
  - unfold mret, Exec_ret. by rewrite insert_id.
Qed.

Lemma forEachFrom_headers h a r rowData row seen todo item :
  holdsHeaders h a (seen ++ todo)%list -> holdsRow h r row ->
  holdsRecord h rowData item -> rowData <> a -> rowData <> r ->
  forEachFrom (visitHeaderExec materialsConfig (Ref r) rowData) a
    (length seen) (length todo) h =
  Some (tt, <[rowData :=
               PlainObj (Prim <$> forEachHeader materialsConfig row todo
                                    (length seen) item)]> h).
Proof.
  revert h seen item.
  induction todo as [|header todo IH]; intros h seen item Ha Hr Hitem Hna Hnr.
  - simpl. unfold mret, Exec_ret. by rewrite insert_id.
  - simpl.
    rewrite (bind_run _ _ _ _ _
               (index_headers h a _ (length seen) header Ha
                  (list_lookup_middle seen todo header _ eq_refl))).
    rewrite (bind_run _ _ _ _ _
               (visitHeaderExec_run h a _ r row rowData item (length seen)
                  header Ha Hr Hitem)).
    set (h1 := <[rowData := _]> h).
    replace (S (length seen)) with (length (seen ++ [header])%list)
      by (rewrite length_app; simpl; lia).
    rewrite (IH h1 (seen ++ [header])%list
               (visitHeader materialsConfig row header (length seen) item)).
    + unfold h1. by rewrite insert_insert_eq.
    + unfold holdsHeaders, h1. rewrite lookup_insert_ne by done.
      by rewrite <- app_assoc.
    + unfold holdsRow, h1. by rewrite lookup_insert_ne.
    + unfold holdsRecord, h1. by rewrite lookup_insert_eq.
    + done.
    + done.
Qed.

(** The callback of [.map] allocates the record and touches nothing else. *)
Lemma mapRowExec_run h a headers r row :
  holdsHeaders h a headers -> holdsRow h r row ->
  mapRowExec materialsConfig a (Ref r) h =
  Some (Ref (fresh (dom h)),
        <[fresh (dom h) :=
            PlainObj (Prim <$> mapRow materialsConfig headers row)]> h).
Proof.
  intros Ha Hr. unfold mapRowExec.
  set (l := fresh (dom h)).
  assert (h !! l = None) as Hl by apply alloc_fresh.
  assert (l <> a) as Hla by (intros ->; unfold holdsHeaders in Ha; congruence).
  assert (l <> r) as Hlr by (intros ->; unfold holdsRow in Hr; congruence).
  rewrite (bind_run _ _ h l (<[l := PlainObj ∅]> h)) by done.
  set (h1 := <[l := PlainObj ∅]> h).
  assert (holdsHeaders h1 a ([] ++ headers)%list) as Ha1.
  { unfold holdsHeaders, h1. by rewrite lookup_insert_ne. }
  assert (holdsRow h1 r row) as Hr1.
  { unfold holdsRow, h1. by rewrite lookup_insert_ne. }
  assert (holdsRecord h1 l ∅) as Hl1.
  { unfold holdsRecord, h1. by rewrite lookup_insert_eq, fmap_empty. }
  assert (lengthOf a h1 = Some (length headers, h1)) as Hlen.
  { unfold lengthOf. unfold holdsHeaders in Ha1. rewrite Ha1.
    by rewrite length_fmap. }
  assert (forEach (visitHeaderExec materialsConfig (Ref r) l) a h1 =
          Some (tt, <[l := PlainObj
                             (Prim <$> mapRow materialsConfig headers row)]> h1))
    as Hloop.
  { unfold forEach. rewrite (bind_run _ _ _ _ _ Hlen).
    apply (forEachFrom_headers h1 a r l row [] headers ∅ Ha1 Hr1 Hl1 Hla Hlr). }
  rewrite (bind_run _ _ _ _ _ Hloop).
  unfold mret, Exec_ret, h1. by rewrite insert_insert_eq.
Qed.

(** ** The loops of [.map] and [.filter] *)

Lemma index_refs h a (ls : list loc) k l :
  h !! a = Some (ArrayObj (Ref <$> ls)) -> ls !! k = Some l ->
  index a k h = Some (Ref l, h).
Proof. unfold index. intros -> Hk. by rewrite list_lookup_fmap, Hk. Qed.

Lemma lengthOf_refs h a (ls : list loc) :
  h !! a = Some (ArrayObj (Ref <$> ls)) ->
  lengthOf a h = Some (length ls, h).
Proof. unfold lengthOf. intros ->. by rewrite length_fmap. Qed.

(** The loop of [.map] over an array of row references: it returns one new
    record per row and only adds objects to the store. *)
Lemma mapFrom_rows h a hs headers (seen todo : list loc) rows :
  holdsHeaders h hs headers ->
  h !! a = Some (ArrayObj (Ref <$> (seen ++ todo)%list)) ->
  Forall2 (holdsRow h) todo rows ->
  exists (ls : list loc) h',
    mapFrom (mapRowExec materialsConfig hs) a (length seen) (length todo) h =
      Some (Ref <$> ls, h') /\
    h ⊆ h' /\
    Forall2 (holdsRecord h') ls (map (mapRow materialsConfig headers) rows).
Proof.
  intros Hhs Ha Hrows. revert h seen Hhs Ha Hrows.
  revert rows.
  induction todo as [|r todo IH]; intros rows h seen Hhs Ha Hrows.
  - apply Forall2_nil_inv_l in Hrows as ->.
    exists [], h. simpl. repeat split; [done | constructor].
  - apply Forall2_cons_inv_l in Hrows as (row & rows' & Hr & Hrows & ->).
    simpl.
    rewrite (bind_run _ _ _ _ _
               (index_refs h a _ (length seen) r Ha
                  (list_lookup_middle seen todo r _ eq_refl))).
    rewrite (bind_run _ _ _ _ _ (mapRowExec_run h hs headers r row Hhs Hr)).
    set (l := fresh (dom h)).
    set (h1 := <[l := _]> h).
    assert (h ⊆ h1) as Hsub by apply alloc_extends.
    destruct (IH rows' h1 (seen ++ [r])%list) as (ls & h' & Hrun & Hsub' & Hrec).
    + by eapply holdsHeaders_mono.
    + rewrite <- app_assoc. by eapply lookup_weaken.
    + eapply Forall2_impl; [done|]. intros r' row'. by apply holdsRow_mono.
    + rewrite length_app, Nat.add_1_r in Hrun.
      exists (l :: ls), h'. rewrite (bind_run _ _ _ _ _ Hrun).
      repeat split.
      * by transitivity h1.
      * constructor; [|done].
        eapply holdsRecord_mono; [done|].
        unfold holdsRecord, h1. by rewrite lookup_insert_eq.
Qed.

(** The callback of [.filter] reads two properties and writes nothing. *)
Lemma retainedExec_run h o item :
  holdsRecord h o item ->
  retainedExec (Ref o) h = Some (retained item, h).
Proof.
  intros Ho. unfold retainedExec.
  rewrite (bind_run _ _ _ _ _ (getProperty_record h o item "purchasePrice" Ho)).
  by rewrite (bind_run _ _ _ _ _ (getProperty_record h o item "taxRate" Ho)).
Qed.

(** The loop of [.filter] over an array of record references: the store
    stays as it is and the references kept are those of the records that
    [retained] keeps. *)
Lemma filterFrom_records h a (seen todo : list loc) items :
  h !! a = Some (ArrayObj (Ref <$> (seen ++ todo)%list)) ->
  Forall2 (holdsRecord h) todo items ->
  exists ls : list loc,
    filterFrom retainedExec a (length seen) (length todo) h =
      Some (Ref <$> ls, h) /\
    Forall2 (holdsRecord h) ls (List.filter retained items).
Proof.
  intros Ha Hitems. revert seen Ha. revert items Hitems.
  induction todo as [|o todo IH]; intros items Hitems seen Ha.
  - apply Forall2_nil_inv_l in Hitems as ->.
    exists []. simpl. split; [done | constructor].
  - apply Forall2_cons_inv_l in Hitems as (item & items' & Ho & Hitems & ->).
    simpl.
    rewrite (bind_run _ _ _ _ _
               (index_refs h a _ (length seen) o Ha
                  (list_lookup_middle seen todo o _ eq_refl))).
    rewrite (bind_run _ _ _ _ _ (retainedExec_run h o item Ho)).
    destruct (IH items' Hitems (seen ++ [o])%list) as (ls & Hrun & Hkept).
    + by rewrite <- app_assoc.
    + rewrite length_app, Nat.add_1_r in Hrun.
      rewrite (bind_run _ _ _ _ _ Hrun).
      destruct (retained item).
      * exists (o :: ls). split; [done | by constructor].
      * exists ls. by split.
Qed.

(** ** The whole expression over the store *)

(** One invocation returns; it leaves every object of the store as it was;
    the array it returns holds the records of [mappedData]. *)
Lemma mappedDataExec_run h hs rs headers rows :
  holdsHeaders h hs headers -> holdsRows h rs rows ->
  exists out h',
    mappedDataExec materialsConfig hs rs h = Some (out, h') /\
    h ⊆ h' /\
    holdsRecords h' out (mappedData materialsConfig headers rows).
Proof.
  intros Hhs (ls & Hrs & Hrows). unfold mappedDataExec.
  (* rows.slice(0, 10) *)
  set (sliced := fresh (dom h)).
  set (h1 := <[sliced := ArrayObj (Ref <$> take 10 ls)]> h).
  assert (slice0 rs 10 h = Some (sliced, h1)) as Hslice.
  { unfold slice0. rewrite Hrs. unfold alloc, h1, sliced. by rewrite fmap_take. }
  assert (h ⊆ h1) as Hsub1 by apply alloc_extends.
  rewrite (bind_run _ _ _ _ _ Hslice).
  (* .map(...) *)
  assert (h1 !! sliced = Some (ArrayObj (Ref <$> ([] ++ take 10 ls)%list)))
    as Hsliced by (unfold h1; by rewrite lookup_insert_eq).
  assert (Forall2 (holdsRow h1) (take 10 ls) (take 10 rows)) as Hrows1.
  { apply Forall2_take. eapply Forall2_impl; [done|].
    intros r row. by apply holdsRow_mono. }
  destruct (mapFrom_rows h1 sliced hs headers [] (take 10 ls) (take 10 rows)
              (holdsHeaders_mono _ _ _ _ Hsub1 Hhs) Hsliced Hrows1)
    as (os & h2 & Hmap & Hsub2 & Hrecs).
  fold (mappedRows materialsConfig headers rows) in Hrecs.
  set (mapped := fresh (dom h2)).
  set (h3 := <[mapped := ArrayObj (Ref <$> os)]> h2).
  assert (arrayMap (mapRowExec materialsConfig hs) sliced h1 =
          Some (mapped, h3)) as HarrayMap.
  { unfold arrayMap.
    rewrite (bind_run _ _ _ _ _ (lengthOf_refs h1 sliced _ Hsliced)).
    simpl in Hmap. by rewrite (bind_run _ _ _ _ _ Hmap). }
  assert (h2 ⊆ h3) as Hsub3 by apply alloc_extends.
  rewrite (bind_run _ _ _ _ _ HarrayMap).
  (* .filter(...) *)
  assert (h3 !! mapped = Some (ArrayObj (Ref <$> ([] ++ os)%list)))
    as Hmapped by (unfold h3; by rewrite lookup_insert_eq).
  assert (Forall2 (holdsRecord h3) os
            (mappedRows materialsConfig headers rows)) as Hrecs3.
  { eapply Forall2_impl; [done|]. intros o item. by apply holdsRecord_mono. }
  destruct (filterFrom_records h3 mapped [] os _ Hmapped Hrecs3)
    as (kept & Hfilter & Hkept).
  fold (mappedData materialsConfig headers rows) in Hkept.
  set (out := fresh (dom h3)).
  set (h4 := <[out := ArrayObj (Ref <$> kept)]> h3).
  assert (h3 ⊆ h4) as Hsub4 by apply alloc_extends.
  exists out, h4. split; [|split].
  - unfold arrayFilter.
    rewrite (bind_run _ _ _ _ _ (lengthOf_refs h3 mapped _ Hmapped)).
    simpl in Hfilter. by rewrite (bind_run _ _ _ _ _ Hfilter).
  - transitivity h1; [done|]. transitivity h2; [done|]. by transitivity h3.
  - exists kept. split.
    + unfold h4. by rewrite lookup_insert_eq.
    + eapply Forall2_impl; [done|]. intros o item. by apply holdsRecord_mono.
Qed.

End Store.

(** C6: the mapper computes a function of the contents of its inputs and
    mutates none of them.  Run in two stores that hold the same header row
    and the same data rows, at whatever places and with whatever sharing
    between rows, both invocations return, both leave every object that
    was in their store exactly as it was, and the arrays they return hold
    the same sequence of records, the value of [mappedData]. *)
Theorem invocations_agree_and_keep_inputs (materialsConfig : MaterialsConfig)
    (h g : heap) (hs rs hs' rs' : loc)
    (headers : list string) (rows : list (list value)) :
  holdsHeaders h hs headers -> holdsRows h rs rows ->
  holdsHeaders g hs' headers -> holdsRows g rs' rows ->
  exists out h' out' g',
    mappedDataExec materialsConfig hs rs h = Some (out, h') /\
    mappedDataExec materialsConfig hs' rs' g = Some (out', g') /\
    h ⊆ h' /\ g ⊆ g' /\
    holdsHeaders h' hs headers /\ holdsRows h' rs rows /\
    holdsHeaders g' hs' headers /\ holdsRows g' rs' rows /\
    holdsRecords h' out (mappedData materialsConfig headers rows) /\
    holdsRecords g' out' (mappedData materialsConfig headers rows).
Proof.
  intros Hhs Hrs Hhs' Hrs'.
  destruct (mappedDataExec_run materialsConfig h hs rs headers rows Hhs Hrs)
    as (out & h' & Hrun & Hsub & Hout).
  destruct (mappedDataExec_run materialsConfig g hs' rs' headers rows Hhs' Hrs')
    as (out' & g' & Hrun' & Hsub' & Hout').
  exists out, h', out', g'. repeat split; try done.
  - by eapply holdsHeaders_mono.
  - by eapply holdsRows_mono.
  - by eapply holdsHeaders_mono.
  - by eapply holdsRows_mono.
Qed.

Lemma invocations_agree_and_keep_inputs_witness :
  exists out h' out' g',
    mappedDataExec config 1%positive 2%positive storeWithSheet =
      Some (out, h') /\
    mappedDataExec config 5%positive 4%positive storeWithSheetCopy =
      Some (out', g') /\
    storeWithSheet ⊆ h' /\ storeWithSheetCopy ⊆ g' /\
    holdsHeaders h' 1%positive ["采购价"; "税点"] /\
    holdsRows h' 2%positive
      [[Num (lit 3); Str "4"]; [Num (lit 3); Str "4"]] /\
    holdsHeaders g' 5%positive ["采购价"; "税点"] /\
    holdsRows g' 4%positive
      [[Num (lit 3); Str "4"]; [Num (lit 3); Str "4"]] /\
    holdsRecords h' out
      (mappedData config ["采购价"; "税点"]
         [[Num (lit 3); Str "4"]; [Num (lit 3); Str "4"]]) /\
    holdsRecords g' out'
      (mappedData config ["采购价"; "税点"]
         [[Num (lit 3); Str "4"]; [Num (lit 3); Str "4"]]).
Proof.
  apply (invocations_agree_and_keep_inputs config
           storeWithSheet storeWithSheetCopy).
  - unfold holdsHeaders. by_evaluation.
  - exists [3%positive; 3%positive]. split; [by_evaluation|].
    repeat constructor; unfold holdsRow; by_evaluation.
  - unfold holdsHeaders. by_evaluation.
  - exists [7%positive; 8%positive]. split; [by_evaluation|].
    repeat constructor; unfold holdsRow; by_evaluation.
Defined.

(** The second invocation sees the store the first one left, and the result
    of the first is still intact after it. *)
Corollary second_invocation_after_first (materialsConfig : MaterialsConfig)
    (h : heap) (hs rs : loc) (headers : list string)
    (rows : list (list value)) :
  holdsHeaders h hs headers -> holdsRows h rs rows ->
  exists out1 h1 out2 h2,
    mappedDataExec materialsConfig hs rs h = Some (out1, h1) /\
    mappedDataExec materialsConfig hs rs h1 = Some (out2, h2) /\
    h ⊆ h2 /\
    holdsRecords h2 out1 (mappedData materialsConfig headers rows) /\
    holdsRecords h2 out2 (mappedData materialsConfig headers rows).
Proof.
  intros Hhs Hrs.
  destruct (mappedDataExec_run materialsConfig h hs rs headers rows Hhs Hrs)
    as (out1 & h1 & Hrun1 & Hsub1 & Hout1).
  destruct (mappedDataExec_run materialsConfig h1 hs rs headers rows)
    as (out2 & h2 & Hrun2 & Hsub2 & Hout2).
  { by eapply holdsHeaders_mono. }
  { by eapply holdsRows_mono. }
  exists out1, h1, out2, h2. repeat split; try done.
  - by transitivity h1.
  - by eapply holdsRecords_mono.
Qed.

(** * The route *)

Section Route.

Context (platform : Platform) (materialsConfig : MaterialsConfig).

Implicit Types (excelFile : option UploadedFile) (file : UploadedFile).
Implicit Types (d : gmap string string).

(** Breaks the handler (and [failureOf]) down along its branches. *)
Ltac branches :=
  repeat match goal with
    | |- context [negb (isValidExcel ?f)] => destruct (isValidExcel f); simpl
    | |- context [(maxSize <? ?n)%N] => destruct (maxSize <? n)%N; simpl
    | |- context [readFileSync ?d ?p] => destruct (readFileSync d p); simpl
    | |- context [xlsx_parse ?pf ?b] => destruct (xlsx_parse pf b); simpl
    | |- context [?w !! 0%nat] => destruct (w !! 0%nat); simpl
    | |- context [data ?sh] => destruct (data sh); simpl
    end.

(** The clean-up removes the file it is given. *)
Lemma cleanup_removes path d : cleanup (Some path) d !! path = None.
Proof.
  unfold cleanup, existsSync, unlinkSync. case_bool_decide as Hexists.
  - apply lookup_delete_eq.
  - by apply eq_None_not_Some.
Qed.

(** Without a path the clean-up does nothing. *)
Lemma cleanup_nothing d : cleanup None d = d.
Proof. done. Qed.

(** Every failure is answered with the error object, [success] being
    [false]; the status assigned is 400 on the three validation branches and
    500 in the [catch] block, and none is assigned for the empty sheet. *)
Lemma parseExcel_failure excelFile d k :
  failureOf platform excelFile d = Some k ->
  exists message,
    body (parseExcel platform materialsConfig excelFile d).1 =
      Some (ErrorBody false message) /\
    status (parseExcel platform materialsConfig excelFile d).1 =
      match k with
      | MissingFile | InvalidFileType | FileTooLarge => Some 400
      | InternalParseError => Some 500
      | EmptySheet => None
      end.
Proof.
  unfold failureOf, parseExcel.
  destruct excelFile as [file|]; simpl; branches;
    intros [= <-]; eexists; split; reflexivity.
Qed.

(** So the status sent agrees with the specified one on every failure but
    the empty sheet, which is sent with 200. *)
Lemma parseExcel_failure_status excelFile d k :
  failureOf platform excelFile d = Some k ->
  responseStatus (parseExcel platform materialsConfig excelFile d).1 =
  match k with
  | EmptySheet => 200
  | _ => specifiedStatus k
  end.
Proof.
  intros Hk.
  destruct (parseExcel_failure excelFile d k Hk) as (message & Hbody & Hstatus).
  unfold responseStatus. rewrite Hstatus, Hbody. by destruct k.
Qed.

(** A request that passes every check is answered with the mapped records,
    with status 200. *)
Lemma parseExcel_success excelFile d :
  failureOf platform excelFile d = None ->
  exists headers rows,
    body (parseExcel platform materialsConfig excelFile d).1 =
      Some (DataBody (mappedData materialsConfig
                        (propertyKey platform <$> headers) rows)) /\
    responseStatus (parseExcel platform materialsConfig excelFile d).1 = 200.
Proof.
  unfold failureOf, parseExcel.
  destruct excelFile as [file|]; simpl; branches; try discriminate.
  intros _. eexists _, _. split; reflexivity.
Qed.

(** After a success and after the [catch] block the uploaded file is gone. *)
Lemma parseExcel_cleans_up file d :
  failureOf platform (Some file) d = None \/
  failureOf platform (Some file) d = Some InternalParseError ->
  (parseExcel platform materialsConfig (Some file) d).2 !! filepath file = None.
Proof.
  unfold failureOf, parseExcel, catch. simpl. branches;
    intros [Hk | Hk]; try discriminate; apply cleanup_removes.
Qed.

(** On the three branches that return early after the upload (wrong type,
    too large, empty sheet) the disk is left as it was: the uploaded file
    stays. *)
Lemma parseExcel_leaves_file file d k :
  failureOf platform (Some file) d = Some k ->
  k <> InternalParseError ->
  (parseExcel platform materialsConfig (Some file) d).2 = d.
Proof.
  unfold failureOf, parseExcel, catch. simpl. branches;
    intros [= <-] Hk; done.
Qed.

End Route.

(** C7: the empty sheet is not answered with status 400.  The upload passes
    the validation, the parser returns a first sheet without rows, and the
    handler sets the error object as the body without assigning a status:
    the response goes out with 200. *)
Theorem empty_sheet_is_answered_with_200 (materialsConfig : MaterialsConfig)
    (toString : number -> string) :
  let platform :=
    {| xlsx_parse := emptySheetParser; numberToString := toString |} in
  let d : gmap string string := {[ filepath emptySheetUpload := "PK" ]} in
  let ctx := (parseExcel platform materialsConfig (Some emptySheetUpload) d).1 in
  failureOf platform (Some emptySheetUpload) d = Some EmptySheet /\
  body ctx = Some (ErrorBody false "Excel文件为空") /\
  status ctx = None /\
  responseStatus ctx = 200 /\
  responseStatus ctx <> specifiedStatus EmptySheet.
Proof.
  cbv zeta. repeat split; try by_evaluation.
  intros Heq. discriminate Heq.
Qed.

(** C8: the temporary file of an upload that is rejected for its type is
    not deleted.  The handler answers 400 and returns before the path of the
    file is recorded, so the file is on the disk afterwards; the same holds
    for the empty sheet, where the path is recorded but the handler returns
    without the clean-up. *)
Theorem rejected_upload_stays_on_disk (platform : Platform)
    (materialsConfig : MaterialsConfig) :
  let d : gmap string string := {[ filepath textUpload := "hello" ]} in
  let result := parseExcel platform materialsConfig (Some textUpload) d in
  failureOf platform (Some textUpload) d = Some InvalidFileType /\
  responseStatus result.1 = 400 /\
  result.2 !! filepath textUpload = Some "hello".
Proof. cbv zeta. repeat split; by_evaluation. Qed.

(** The empty sheet leaves the uploaded file behind as well. *)
Example empty_sheet_upload_stays_on_disk (materialsConfig : MaterialsConfig)
    (toString : number -> string) :
  let platform :=
    {| xlsx_parse := emptySheetParser; numberToString := toString |} in
  let d : gmap string string := {[ filepath emptySheetUpload := "PK" ]} in
  (parseExcel platform materialsConfig (Some emptySheetUpload) d).2
    !! filepath emptySheetUpload = Some "PK".
Proof. cbv zeta. by_evaluation. Qed.

(** A sheet whose first row is empty goes through the mapper: the route
    answers with one empty record per data row. *)
Example route_with_empty_header_row (materialsConfig : MaterialsConfig)
    (toString : number -> string) :
  let sheet := {| name := "Sheet1"; data := [[]; [Str "A1"; Num (lit 10)]] |} in
  let platform :=
    {| xlsx_parse := fun _ => Return [sheet]; numberToString := toString |} in
  let d : gmap string string := {[ filepath emptySheetUpload := "PK" ]} in
  body (parseExcel platform materialsConfig (Some emptySheetUpload) d).1 =
  Some (DataBody [∅]).
Proof. cbv zeta. by_evaluation. Qed.

(** * Further properties of the row mapper *)

Section MapperOrder.

Context (materialsConfig : MaterialsConfig).

Implicit Types (headers : list string) (row : list value).
Implicit Types (rows : list (list value)) (rowData item : record).

Lemma filter_sublist {A} (p : A -> bool) (l : list A) :
  List.filter p l `sublist_of` l.
Proof.
  induction l as [|a l IH]; simpl; [constructor|].
  destruct (p a); by constructor.
Qed.

Lemma filter_app {A} (p : A -> bool) (l k : list A) :
  List.filter p (l ++ k)%list = (List.filter p l ++ List.filter p k)%list.
Proof.
  induction l as [|a l IH]; simpl; [done|].
  rewrite IH. by destruct (p a).
Qed.

(** X1: the output keeps the order of the data rows.  It is a subsequence
    of the records of all data rows, taken in row order: no record is moved,
    repeated or made up. *)
Theorem mappedData_in_row_order headers rows :
  mappedData materialsConfig headers rows
    `sublist_of` map (mapRow materialsConfig headers) rows.
Proof.
  unfold mappedData, mappedRows.
  transitivity (map (mapRow materialsConfig headers) (take 10 rows)).
  - apply filter_sublist.
  - apply (fmap_sublist (mapRow materialsConfig headers)), sublist_take.
Qed.

(** The keys after a pass: those before it and the fields of the mapped
    headers of the pass. *)
Lemma forEachHeader_dom row headers colIndex rowData :
  dom (forEachHeader materialsConfig row headers colIndex rowData) =
  dom rowData ∪ list_to_set (omap (dbField materialsConfig) headers).
Proof.
  revert colIndex rowData.
  induction headers as [|header rest IH]; intros colIndex rowData; simpl.
  - set_solver.
  - rewrite IH. unfold visitHeader.
    destruct (dbField materialsConfig header) as [f|]; simpl.
    + rewrite dom_insert_L. set_solver.
    + set_solver.
Qed.

(** X2: the keys of the record built for a row are exactly the field names
    that the guarded table lookup gives for the labels of the header row.
    They do not depend on the row: all records have the same keys, also for
    a row that is empty. *)
Theorem mapRow_keys headers row :
  dom (mapRow materialsConfig headers row) =
    list_to_set (omap (dbField materialsConfig) headers) /\
  dom (mapRow materialsConfig headers row) =
    dom (mapRow materialsConfig headers []).
Proof.
  unfold mapRow. rewrite !forEachHeader_dom. set_solver.
Qed.

(** X3: data rows are mapped one by one, without state from one row to the
    next: the output for [rows1] followed by [rows2] is the output for
    [rows1] followed by the output for what the budget of ten rows leaves
    of [rows2]. *)
Theorem mappedData_app headers rows1 rows2 :
  mappedData materialsConfig headers (rows1 ++ rows2)%list =
  (mappedData materialsConfig headers rows1 ++
   mappedData materialsConfig headers (take (10 - length rows1) rows2))%list.
Proof.
  unfold mappedData, mappedRows.
  rewrite take_app, map_app, filter_app. do 3 f_equal.
  rewrite take_take. f_equal. lia.
Qed.

(** The pass reads the row only at the columns whose header is mapped. *)
Lemma forEachHeader_agree_mapped row row' headers colIndex rowData :
  (forall i header,
     headers !! i = Some header ->
     is_Some (dbField materialsConfig header) ->
     cell row (colIndex + i) = cell row' (colIndex + i)) ->
  forEachHeader materialsConfig row headers colIndex rowData =
  forEachHeader materialsConfig row' headers colIndex rowData.
Proof.
  revert colIndex rowData.
  induction headers as [|first rest IH]; intros colIndex rowData Hagree; simpl.
  - done.
  - assert (visitHeader materialsConfig row first colIndex rowData =
            visitHeader materialsConfig row' first colIndex rowData) as ->.
    { unfold visitHeader.
      destruct (dbField materialsConfig first) as [f|] eqn:Hf; [|done].
      specialize (Hagree 0 first eq_refl). rewrite Hf, Nat.add_0_r in Hagree.
      by rewrite Hagree. }
    apply IH. intros i header Hi Hmapped.
    replace (S colIndex + i) with (colIndex + S i) by lia.
    by apply (Hagree (S i) header).
Qed.

(** X4: a cell under a header label without a (truthy) entry in the table
    is never read: two sequences of data rows that agree, row by row, on
    the columns whose header is mapped give the same output. *)
Theorem unmapped_columns_never_read headers rows rows' :
  Forall2 (fun row row' =>
             forall i header,
               headers !! i = Some header ->
               is_Some (dbField materialsConfig header) ->
               cell row i = cell row' i)
          rows rows' ->
  mappedData materialsConfig headers rows =
  mappedData materialsConfig headers rows'.
Proof.
  intros Hrows. unfold mappedData, mappedRows. f_equal.
  apply (Forall2_take _ _ _ 10) in Hrows.
  induction Hrows as [|row row' l l' Hrow _ IH]; simpl; [done|].
  f_equal; [|done].
  apply forEachHeader_agree_mapped. intros i header Hi Hmapped.
  by apply (Hrow i header).
Qed.

(** [v !== 0] fails for the two zeros and for nothing else. *)
Lemma strict_eq_zero v :
  strict_eq v (Num zero) = true <-> exists sign, v = Num (S754_zero sign).
Proof.
  destruct v as [| |b|n|s]; simpl; try (split; [done | by intros [? ?]]).
  destruct n as [sign|sign| |sign m e]; simpl.
  - split; [by exists sign | done].
  - split; [by destruct sign | by intros [? ?]].
  - split; [done | by intros [? ?]].
  - split; [by destruct sign | by intros [? ?]].
Qed.

Lemma strict_eq_null v : strict_eq v Null = true <-> v = Null.
Proof. destruct v; simpl; split; done. Qed.

(** What the filter's test lets through: everything but [null] and the
    number zero of either sign. *)
Lemma passes_test v :
  strict_neq v Null && strict_neq v (Num zero) = true <->
  v <> Null /\ forall sign, v <> Num (S754_zero sign).
Proof.
  unfold strict_neq. rewrite andb_true_iff, !negb_true_iff.
  rewrite <- !not_true_iff_false, strict_eq_null, strict_eq_zero.
  split.
  - intros [Hnull Hzero]. split; [done|]. intros sign Heq. apply Hzero. eauto.
  - intros [Hnull Hzero]. split; [done|]. intros [sign Heq]. by apply (Hzero sign).
Qed.

(** X5: the retention rule of the code.  A record is in the output exactly
    when it is the record of one of the first ten rows and neither its
    purchase price nor its tax rate is [null] or the number zero (of either
    sign).  Every other value passes the strict test: [undefined], NaN, a
    string, a boolean. *)
Theorem retention_rule headers rows item :
  item ∈ mappedData materialsConfig headers rows <->
  item ∈ mappedRows materialsConfig headers rows /\
  (prop item "purchasePrice" <> Null /\
   forall sign, prop item "purchasePrice" <> Num (S754_zero sign)) /\
  (prop item "taxRate" <> Null /\
   forall sign, prop item "taxRate" <> Num (S754_zero sign)).
Proof.
  rewrite mappedData_elem. unfold retained.
  rewrite <- !passes_test, <- andb_true_iff, !andb_assoc. done.
Qed.

End MapperOrder.

Lemma unmapped_columns_never_read_witness :
  mappedData config ["备注"; "采购价"; "税点"]
    [[Str "urgent"; Num (lit 10); Num (lit 1)]] =
  mappedData config ["备注"; "采购价"; "税点"]
    [[Undefined; Num (lit 10); Num (lit 1); Str "extra"]].
Proof.
  apply (unmapped_columns_never_read config).
  constructor; [|constructor].
  intros i header Hi [f Hf].
  destruct i as [|[|[|i]]]; [|reflexivity|reflexivity|discriminate Hi].
  injection Hi as <-. discriminate Hf.
Defined.

(** * Further properties of the route *)

(** ** The test on the file name *)

Lemma length_append (a b : string) :
  String.length (a ++ b) = String.length a + String.length b.
Proof. induction a as [|c a IH]; simpl; [done | by rewrite IH]. Qed.

Lemma substring_whole (b : string) : substring 0 (String.length b) b = b.
Proof. induction b as [|c b IH]; simpl; [done | by rewrite IH]. Qed.

Lemma substring_suffix (a b : string) :
  substring (String.length a) (String.length b) (a ++ b) = b.
Proof. induction a as [|c a IH]; simpl; [apply substring_whole | done]. Qed.

(** A string splits at any position within it. *)
Lemma substring_split (s : string) (n : nat) :
  n <= String.length s ->
  s = substring 0 n s ++ substring n (String.length s - n) s.
Proof.
  revert n. induction s as [|c s IH]; intros n Hn; simpl in *.
  - destruct n; [done | lia].
  - destruct n as [|n]; simpl.
    + by rewrite substring_whole.
    + change (String c s =
              String c (substring 0 n s ++
                        substring n (String.length s - n) s)).
      f_equal. apply IH. lia.
Qed.

Lemma endsWith_append (a b : string) : endsWith (a ++ b) b = true.
Proof.
  unfold endsWith. rewrite length_append.
  replace (String.length a + String.length b - String.length b)
    with (String.length a) by lia.
  rewrite substring_suffix, String.eqb_refl, andb_true_r.
  apply Nat.leb_le. lia.
Qed.

Lemma endsWith_split (s suffix : string) :
  endsWith s suffix = true -> exists a, s = a ++ suffix.
Proof.
  unfold endsWith. rewrite andb_true_iff, Nat.leb_le.
  intros [Hle Heq]. apply String.eqb_eq in Heq.
  remember (String.length s - String.length suffix) as k eqn:Hk.
  assert (String.length suffix = String.length s - k) as Hm by lia.
  rewrite Hm in Heq. exists (substring 0 k s). rewrite <- Heq.
  apply substring_split. lia.
Qed.

Lemma lower_append (a b : string) : lower (a ++ b) = lower a ++ lower b.
Proof. induction a as [|c a IH]; simpl; [done | by rewrite IH]. Qed.

(** A split of the lowered name comes from a split of the name. *)
Lemma lower_split (s a b : string) :
  lower s = a ++ b -> exists a' b', s = a' ++ b' /\ lower b' = b.
Proof.
  revert s. induction a as [|c a IH]; intros s Heq; simpl in Heq.
  - by exists "", s.
  - destruct s as [|c' s]; [done|]. simpl in Heq.
    injection Heq as _ Heq. destruct (IH s Heq) as (a' & b' & -> & Hb).
    by exists (String c' a'), b'.
Qed.

(** X6: the test on the file name accepts exactly the names that end in
    [.xlsx], [.xls] or [.csv], in any mix of upper and lower case; nothing
    is asked of what comes before the extension. *)
Theorem hasExcelExtension_iff (name : string) :
  hasExcelExtension name = true <->
  exists stem ext,
    name = stem ++ ext /\
    (lower ext = ".xlsx" \/ lower ext = ".xls" \/ lower ext = ".csv").
Proof.
  unfold hasExcelExtension. rewrite !orb_true_iff. split.
  - intros [[H | H] | H]; apply endsWith_split in H as [a Ha];
      apply lower_split in Ha as (stem & ext & -> & Hext);
      exists stem, ext; auto.
  - intros (stem & ext & -> & Hext). rewrite lower_append.
    destruct Hext as [-> | [-> | ->]]; rewrite endsWith_append; auto.
Qed.

Section RouteMore.

Context (platform : Platform) (materialsConfig : MaterialsConfig).

Implicit Types (excelFile : option UploadedFile) (file : UploadedFile).
Implicit Types (d : gmap string string).

Ltac branches :=
  repeat match goal with
    | |- context [negb (isValidExcel ?f)] => destruct (isValidExcel f); simpl
    | |- context [(maxSize <? ?n)%N] => destruct (maxSize <? n)%N; simpl
    | |- context [readFileSync ?d ?p] => destruct (readFileSync d p); simpl
    | |- context [xlsx_parse ?pf ?b] => destruct (xlsx_parse pf b); simpl
    | |- context [?w !! 0%nat] => destruct (w !! 0%nat); simpl
    | |- context [data ?sh] => destruct (data sh); simpl
    end.

Lemma cleanup_existing path d :
  is_Some (d !! path) -> cleanup (Some path) d = delete path d.
Proof.
  intros Hsome. unfold cleanup, existsSync, unlinkSync.
  by rewrite bool_decide_eq_true_2.
Qed.

Lemma cleanup_delete path d : cleanup (Some path) d = delete path d.
Proof.
  unfold cleanup, existsSync, unlinkSync. case_bool_decide as Hexists; [done|].
  symmetry. apply delete_id. by apply eq_None_not_Some.
Qed.

(** X7: a request that passes every check is answered with the bare array
    of mapped records of the first sheet, its first row being the header
    row; no status is assigned, so 200 is sent; the other sheets of the
    workbook play no part; and the uploaded file is removed from the disk. *)
Theorem parseExcel_accepts file d contents sheet others headers rows :
  isValidExcel file = true ->
  (size file <= maxSize)%N ->
  d !! filepath file = Some contents ->
  xlsx_parse platform contents = Return (sheet :: others) ->
  data sheet = headers :: rows ->
  parseExcel platform materialsConfig (Some file) d =
  ({| status := None;
      body := Some (DataBody (mappedData materialsConfig
                                (propertyKey platform <$> headers) rows)) |},
   delete (filepath file) d) /\
  responseStatus (parseExcel platform materialsConfig (Some file) d).1 = 200.
Proof.
  intros Hvalid Hsize Hfile Hparse Hdata. unfold parseExcel.
  rewrite Hvalid. simpl.
  apply N.ltb_ge in Hsize. rewrite Hsize.
  unfold readFileSync. rewrite Hfile, Hparse. simpl. rewrite Hdata.
  by rewrite <- (cleanup_delete (filepath file) d).
Qed.

(** X8: the handler changes the disk at most at the path of the uploaded
    file.  Every other path holds after the request what it held before,
    and the path of the upload either is untouched or holds nothing. *)
Theorem parseExcel_disk_frame excelFile d path :
  (parseExcel platform materialsConfig excelFile d).2 !! path = d !! path \/
  (exists file,
     excelFile = Some file /\ path = filepath file /\
     (parseExcel platform materialsConfig excelFile d).2 !! path = None).
Proof.
  unfold parseExcel, catch.
  destruct excelFile as [file|]; simpl; [|by left].
  branches; try (by left);
    (destruct (decide (path = filepath file)) as [->|Hne];
     [ right; exists file; repeat split; apply cleanup_removes
     | left; rewrite <- (lookup_delete_ne d (filepath file) path) by done;
       by rewrite <- cleanup_delete ]).
Qed.

(** X9: the size limit is 10 MiB, inclusive.  An upload of an accepted type
    is rejected as too large exactly when its size exceeds 10485760 bytes. *)
Theorem size_limit_is_inclusive file d :
  isValidExcel file = true ->
  (parseExcel platform materialsConfig (Some file) d).1 =
    reject (Some 400) "文件过大，最大支持 10MB" <->
  (10485760 < size file)%N.
Proof.
  intros Hvalid. unfold parseExcel, catch. rewrite Hvalid. simpl.
  change maxSize with 10485760%N.
  destruct (N.ltb_spec 10485760 (size file)) as [Hlt | Hge]; simpl.
  - done.
  - split; [|lia]. branches; discriminate.
Qed.

(** X10: a request without a file, with a file of a wrong type or with a
    file that is too large is answered before the disk is read or the
    parser is called: the answer is the same whatever the disk holds and
    whatever the parser and the mapping configuration are, and the disk is
    left as it was. *)
Theorem rejected_before_reading excelFile d
    (platform' : Platform) (materialsConfig' : MaterialsConfig)
    (d' : gmap string string) :
  (excelFile = None \/
   exists file, excelFile = Some file /\
                (isValidExcel file = false \/ (maxSize < size file)%N)) ->
  (parseExcel platform materialsConfig excelFile d).1 =
    (parseExcel platform' materialsConfig' excelFile d').1 /\
  (parseExcel platform materialsConfig excelFile d).2 = d /\
  status (parseExcel platform materialsConfig excelFile d).1 = Some 400.
Proof.
  intros [-> | (file & -> & Hrejected)]; [done|].
  unfold parseExcel. destruct (isValidExcel file); simpl; [|done].
  destruct Hrejected as [Hvalid | Hsize]; [done|].
  apply N.ltb_lt in Hsize. by rewrite Hsize.
Qed.

(** X11: when the parser throws on the contents of the upload, the answer
    has status 500 and carries the message of the error, and the uploaded
    file is removed from the disk. *)
Theorem parse_error_is_reported file d contents message :
  isValidExcel file = true ->
  (size file <= maxSize)%N ->
  d !! filepath file = Some contents ->
  xlsx_parse platform contents = Throw message ->
  parseExcel platform materialsConfig (Some file) d =
  (reject (Some 500) message, delete (filepath file) d).
Proof.
  intros Hvalid Hsize Hfile Hparse. unfold parseExcel, catch.
  rewrite Hvalid. simpl.
  apply N.ltb_ge in Hsize. rewrite Hsize.
  unfold readFileSync. rewrite Hfile, Hparse.
  by rewrite <- (cleanup_delete (filepath file) d).
Qed.

End RouteMore.

Lemma parseExcel_accepts_witness :
  parseExcel twoSheetPlatform config (Some sheetUpload)
    {[ "uploads/upload_3.xlsx" := "PK"; "uploads/other.xlsx" := "PK" ]} =
  ({| status := None;
      body := Some (DataBody (mappedData config
                (propertyKey twoSheetPlatform <$> [Str "采购价"; Str "税点"])
                [[Num (lit 10); Num (lit 1)]])) |},
   delete (filepath sheetUpload)
     {[ "uploads/upload_3.xlsx" := "PK"; "uploads/other.xlsx" := "PK" ]}) /\
  responseStatus
    (parseExcel twoSheetPlatform config (Some sheetUpload)
       {[ "uploads/upload_3.xlsx" := "PK";
          "uploads/other.xlsx" := "PK" ]}).1 = 200.
Proof.
  apply (parseExcel_accepts twoSheetPlatform config sheetUpload _ "PK"
           {| name := "Sheet1";
              data := [ [Str "采购价"; Str "税点"];
                        [Num (lit 10); Num (lit 1)] ] |}
           [ {| name := "Sheet2"; data := [[Str "x"]] |} ]).
  - by_evaluation.
  - apply N.leb_le. by_evaluation.
  - by_evaluation.
  - reflexivity.
  - reflexivity.
Defined.

Lemma size_limit_is_inclusive_witness :
  (parseExcel twoSheetPlatform config (Some sheetUpload) ∅).1 =
    reject (Some 400) "文件过大，最大支持 10MB" <->
  (10485760 < size sheetUpload)%N.
Proof.
  apply (size_limit_is_inclusive twoSheetPlatform config sheetUpload ∅).
  by_evaluation.
Defined.

Lemma rejected_before_reading_witness :
  (parseExcel twoSheetPlatform config (Some textUpload)
     {[ "uploads/upload_2.txt" := "hello" ]}).1 =
    (parseExcel failingPlatform config (Some textUpload) ∅).1 /\
  (parseExcel twoSheetPlatform config (Some textUpload)
     {[ "uploads/upload_2.txt" := "hello" ]}).2 =
    {[ "uploads/upload_2.txt" := "hello" ]} /\
  status (parseExcel twoSheetPlatform config (Some textUpload)
            {[ "uploads/upload_2.txt" := "hello" ]}).1 = Some 400.
Proof.
  apply (rejected_before_reading twoSheetPlatform config (Some textUpload)).
  right. exists textUpload. split; [reflexivity|]. left. by_evaluation.
Defined.

Lemma parse_error_is_reported_witness :
  parseExcel failingPlatform config (Some sheetUpload)
    {[ "uploads/upload_3.xlsx" := "PK" ]} =
  (reject (Some 500) "Unsupported file",
   delete (filepath sheetUpload) {[ "uploads/upload_3.xlsx" := "PK" ]}).
Proof.
  apply (parse_error_is_reported failingPlatform config sheetUpload _ "PK").
  - by_evaluation.
  - apply N.leb_le. by_evaluation.
  - by_evaluation.
  - reflexivity.
Defined.

(** * The proxy server *)

Section Proxy.

Context (node : Node) (net : Network).

Implicit Types (body : gmap string json) (d : gmap string string).
Implicit Types (options : Options.t) (url : string).

(** ** [makeRequest] *)

(** At most one request leaves [makeRequest]. *)
Lemma makeRequest_sent url options :
  (makeRequest net url options).2 = [] \/
  exists sent, (makeRequest net url options).2 = [sent].
Proof.
  unfold makeRequest. destruct (newURL net url) as [urlObj|message]; [|by left].
  right. eexists.
  destruct (request net _) as [data|message]; [|done].
  by destruct (JSON_parse net data).
Qed.

(** How [makeRequest] settles, case by case. *)
Lemma makeRequest_cases url options :
  match (makeRequest net url options).1 with
  | Throw message =>
      (newURL net url = Throw message /\
       (makeRequest net url options).2 = []) \/
      (exists sent, (makeRequest net url options).2 = [sent] /\
                    request net sent = Throw message)
  | Return response =>
      exists sent data,
        (makeRequest net url options).2 = [sent] /\
        request net sent = Return data /\
        (JSON_parse net data = Return response \/
         (exists message, JSON_parse net data = Throw message) /\
         response = JObj {[ "rawData" := JStr data ]})
  end.
Proof.
  unfold makeRequest. destruct (newURL net url) as [urlObj|message]; simpl.
  - destruct (request net _) as [data|message] eqn:Hrequest; simpl.
    + destruct (JSON_parse net data) as [jsonData|message] eqn:Hparse; simpl;
        eexists _, data; repeat split; eauto.
    + right. eauto.
  - by left.
Qed.

(** X12: [makeRequest] is rejected for two reasons only: the URL does not
    parse (and then nothing is sent), or the exchange with the target
    reports an error.  An answer that is no JSON is not among them: it
    resolves to an object that holds the text under [rawData]. *)
Theorem makeRequest_settles url options :
  match (makeRequest net url options).1 with
  | Throw message =>
      (newURL net url = Throw message /\
       (makeRequest net url options).2 = []) \/
      (exists sent, (makeRequest net url options).2 = [sent] /\
                    request net sent = Throw message)
  | Return response =>
      exists sent data,
        (makeRequest net url options).2 = [sent] /\
        request net sent = Return data /\
        (JSON_parse net data = Return response \/
         (exists message, JSON_parse net data = Throw message) /\
         response = JObj {[ "rawData" := JStr data ]})
  end.
Proof. apply makeRequest_cases. Qed.

(** X13: the request that [makeRequest] sends.  The client is [https] for
    the protocol [https:] and [http] for every other one; the port is the
    one the URL names and else 443 for [https] and 80 otherwise; the method
    is the one asked for and else POST; the body is written when there is
    truthy data. *)
Theorem makeRequest_request url options urlObj sent :
  newURL net url = Return urlObj ->
  (makeRequest net url options).2 = [sent] ->
  secure sent = String.eqb (URL.protocol urlObj) "https:" /\
  RequestOptions.hostname (requestOptions sent) = URL.hostname urlObj /\
  RequestOptions.path (requestOptions sent) =
    URL.pathname urlObj ++ URL.search urlObj /\
  (URL.port urlObj <> "" ->
   RequestOptions.port (requestOptions sent) = PortText (URL.port urlObj)) /\
  (URL.port urlObj = "" ->
   RequestOptions.port (requestOptions sent) =
     PortNumber (if secure sent then 443 else 80)) /\
  (forall m, Options.method options = Some m -> m <> "" ->
             RequestOptions.method (requestOptions sent) = m) /\
  (Options.method options = None \/ Options.method options = Some "" ->
   RequestOptions.method (requestOptions sent) = "POST") /\
  written sent =
    JSON_stringify net <$> whenTruthy (Options.data options).
Proof.
  intros Hurl. unfold makeRequest. rewrite Hurl.
  set (s := {| secure := _ |}). intros Hs.
  assert (sent = s) as ->.
  { destruct (request net s) as [data|message]; simpl in Hs.
    - destruct (JSON_parse net data); simpl in Hs; congruence.
    - congruence. }
  clear Hs. unfold s. simpl. split_and!; try done.
  - intros Hport. unfold truthy.
    by destruct (String.eqb_spec (URL.port urlObj) "").
  - by intros ->.
  - intros m -> Hm. unfold truthy.
    by destruct (String.eqb_spec m "").
  - by intros [-> | ->].
Qed.

(** ** The route *)

(** X14: the three required fields are checked in the order [dataPath],
    [hostPre], [host]; the first that is missing or falsy is named in a 400
    reply, and then nothing is sent and neither the disk nor the network
    matters. *)
Theorem runFlow_missing_parameter body :
  whenTruthy (body !! "dataPath") = None \/
  whenTruthy (body !! "hostPre") = None \/
  whenTruthy (body !! "host") = None ->
  exists seen parameter rest,
    ["dataPath"; "hostPre"; "host"] = (seen ++ parameter :: rest)%list /\
    Forall (fun p => is_Some (whenTruthy (body !! p))) seen /\
    whenTruthy (body !! parameter) = None /\
    forall (node' : Node) (net' : Network) (d' : gmap string string),
      runFlow node' net' body d' = (missingParameter parameter, []).
Proof.
  intros Hmissing.
  destruct (whenTruthy (body !! "dataPath")) as [dataPath|] eqn:HdataPath.
  - destruct (whenTruthy (body !! "hostPre")) as [hostPre|] eqn:HhostPre.
    + destruct (whenTruthy (body !! "host")) as [host|] eqn:Hhost.
      * by destruct Hmissing as [? | [? | ?]].
      * exists ["dataPath"; "hostPre"], "host", [].
        repeat split; [|done|].
        { repeat constructor; by eexists. }
        intros node' net' d'. unfold runFlow.
        by rewrite HdataPath, HhostPre, Hhost.
    + exists ["dataPath"], "hostPre", ["host"].
      repeat split; [|done|].
      { repeat constructor; by eexists. }
      intros node' net' d'. unfold runFlow. by rewrite HdataPath, HhostPre.
  - exists [], "dataPath", ["hostPre"; "host"].
    repeat split; [constructor|done|].
    intros node' net' d'. unfold runFlow. by rewrite HdataPath.
Qed.

(** X15: what is forwarded to the target.  [hostPre] is never part of it;
    [data] is the text of the file, whatever [data] the caller sent;
    [dataPath] and [host] are the caller's; every other field of the body
    is passed on as it came. *)
Theorem forwardData_fields body (dataPath host : json) (jsData : string)
    (field : string) :
  forwardData body dataPath host jsData !! field =
  if decide (field = "data") then Some (JStr jsData)
  else if decide (field = "host") then Some host
  else if decide (field = "dataPath") then Some dataPath
  else if decide (field = "hostPre") then None
  else body !! field.
Proof.
  unfold forwardData.
  repeat case_decide; subst; simplify_map_eq; done.
Qed.

(** The forwarding path of the handler, step by step. *)
Lemma runFlow_forward body d (p : string) (hostPre host : json)
    (jsData : string) :
  body !! "dataPath" = Some (JStr p) -> p <> "" ->
  whenTruthy (body !! "hostPre") = Some hostPre ->
  whenTruthy (body !! "host") = Some host ->
  d !! resolve node p = Some jsData ->
  runFlow node net body d =
  match makeRequest net (templateText node hostPre ++ "/api/open/runFlow")
          {| Options.method := Some "POST";
             Options.headers := Some (forwardHeaders host);
             Options.data :=
               Some (JObj (forwardData body (JStr p) host jsData)) |} with
  | (Throw message, sent) => (internalServerError message, sent)
  | (Return JNull, sent) =>
      (internalServerError
         "Cannot read properties of null (reading 'code')", sent)
  | (Return response, sent) => ({| code := 200; payload := response |}, sent)
  end.
Proof.
  intros HdataPath Hp HhostPre Hhost Hfile. unfold runFlow.
  rewrite HdataPath, HhostPre, Hhost. simpl. unfold truthy.
  destruct (String.eqb_spec p "") as [|_]; [done|]. simpl.
  unfold existsSync, readFileSync. rewrite Hfile.
  by rewrite bool_decide_eq_true_2.
Qed.

(** X16: with the three fields present, a path that is a string and a file
    that exists, the handler sends exactly one request provided the target
    URL parses: a POST to [hostPre] followed by [/api/open/runFlow], with
    the caller's [host] as the [Host] header and the forwarded data as the
    body. *)
Theorem runFlow_sends_one_request body d (p : string) (hostPre host : json)
    (jsData : string) (urlObj : URL.t) :
  body !! "dataPath" = Some (JStr p) -> p <> "" ->
  whenTruthy (body !! "hostPre") = Some hostPre ->
  whenTruthy (body !! "host") = Some host ->
  d !! resolve node p = Some jsData ->
  newURL net (templateText node hostPre ++ "/api/open/runFlow") =
    Return urlObj ->
  exists sent,
    (runFlow node net body d).2 = [sent] /\
    RequestOptions.method (requestOptions sent) = "POST" /\
    RequestOptions.hostname (requestOptions sent) = URL.hostname urlObj /\
    RequestOptions.path (requestOptions sent) =
      URL.pathname urlObj ++ URL.search urlObj /\
    RequestOptions.headers (requestOptions sent) !! "Host" = Some host /\
    RequestOptions.headers (requestOptions sent) !! "Content-Type" =
      Some (JStr "application/json") /\
    written sent =
      Some (JSON_stringify net
              (JObj (forwardData body (JStr p) host jsData))).
Proof.
  intros HdataPath Hp HhostPre Hhost Hfile Hurl.
  rewrite (runFlow_forward body d p hostPre host jsData) by done.
  unfold makeRequest. rewrite Hurl. simpl.
  eexists. split.
  - destruct (request net _) as [data|message]; [|reflexivity].
    destruct (JSON_parse net data) as [[]|]; reflexivity.
  - simpl. repeat split; by simplify_map_eq.
Qed.

(** X17: the handler answers 200 only with what came back from the target:
    exactly one request went out, the exchange ended with a text, and the
    payload is that text parsed as JSON, or wrapped under [rawData] when it
    does not parse; the payload is never [null]. *)
Theorem runFlow_ok_is_relayed body d :
  code (runFlow node net body d).1 = 200 ->
  exists sent data,
    (runFlow node net body d).2 = [sent] /\
    request net sent = Return data /\
    payload (runFlow node net body d).1 <> JNull /\
    (JSON_parse net data = Return (payload (runFlow node net body d).1) \/
     (exists message, JSON_parse net data = Throw message) /\
     payload (runFlow node net body d).1 = JObj {[ "rawData" := JStr data ]}).
Proof.
  unfold runFlow.
  destruct (whenTruthy (body !! "dataPath")) as [dataPath|]; [|done].
  destruct (whenTruthy (body !! "hostPre")) as [hostPre|]; [|done].
  destruct (whenTruthy (body !! "host")) as [host|]; [|done].
  destruct (pathResolve node dataPath) as [fullPath|]; [|done].
  destruct (existsSync d fullPath); [|done]. simpl.
  destruct (readFileSync d fullPath) as [jsData|]; [|done].
  set (url := (_ ++ "/api/open/runFlow")). set (options := Options.Build_t _ _ _).
  pose proof (makeRequest_cases url options) as Hsettles.
  destruct (makeRequest net url options) as [[response|message] sent];
    simpl in *; [|done].
  destruct Hsettles as (s & data & -> & Hrequest & Hparse).
  destruct response; simpl; try done; intros _; exists s, data;
    repeat split; done.
Qed.

(** X18: a target that answers the JSON text [null] is not relayed: the
    read of [response.code] throws and the reply is 500, although the
    request went out. *)
Theorem runFlow_null_answer body d (p : string) (hostPre host : json)
    (jsData : string) (urlObj : URL.t) (data : string) :
  body !! "dataPath" = Some (JStr p) -> p <> "" ->
  whenTruthy (body !! "hostPre") = Some hostPre ->
  whenTruthy (body !! "host") = Some host ->
  d !! resolve node p = Some jsData ->
  newURL net (templateText node hostPre ++ "/api/open/runFlow") =
    Return urlObj ->
  (forall sent, request net sent = Return data) ->
  JSON_parse net data = Return JNull ->
  (runFlow node net body d).1 =
    internalServerError "Cannot read properties of null (reading 'code')" /\
  length (runFlow node net body d).2 = 1.
Proof.
  intros HdataPath Hp HhostPre Hhost Hfile Hurl Hrequest Hparse.
  rewrite (runFlow_forward body d p hostPre host jsData) by done.
  unfold makeRequest. by rewrite Hurl, Hrequest, Hparse.
Qed.

(** X19: whatever makes the forwarding fail is answered with status 500
    and the message of the error: here the error of the exchange with the
    target. *)
Theorem runFlow_target_error body d (p : string) (hostPre host : json)
    (jsData : string) (urlObj : URL.t) (message : string) :
  body !! "dataPath" = Some (JStr p) -> p <> "" ->
  whenTruthy (body !! "hostPre") = Some hostPre ->
  whenTruthy (body !! "host") = Some host ->
  d !! resolve node p = Some jsData ->
  newURL net (templateText node hostPre ++ "/api/open/runFlow") =
    Return urlObj ->
  (forall sent, request net sent = Throw message) ->
  (runFlow node net body d).1 = internalServerError message.
Proof.
  intros HdataPath Hp HhostPre Hhost Hfile Hurl Hrequest.
  rewrite (runFlow_forward body d p hostPre host jsData) by done.
  unfold makeRequest. by rewrite Hurl, Hrequest.
Qed.

(** X20: a [dataPath] that names no file is answered with 400 and the
    resolved path, before anything is sent; a [dataPath] that is truthy but
    no string makes [path.resolve] throw and is answered with 500. *)
Theorem runFlow_bad_path body d (dataPath hostPre host : json) :
  whenTruthy (body !! "dataPath") = Some dataPath ->
  whenTruthy (body !! "hostPre") = Some hostPre ->
  whenTruthy (body !! "host") = Some host ->
  match dataPath with
  | JStr p =>
      d !! resolve node p = None ->
      (runFlow node net body d).2 = [] /\
      code (runFlow node net body d).1 = 400 /\
      exists fields,
        payload (runFlow node net body d).1 = JObj fields /\
        fields !! "error" = Some (JStr "File not found") /\
        fields !! "path" = Some (JStr (resolve node p))
  | other =>
      runFlow node net body d =
      (internalServerError (resolveTypeError node other), [])
  end.
Proof.
  intros HdataPath HhostPre Hhost. unfold runFlow.
  rewrite HdataPath, HhostPre, Hhost.
  destruct dataPath as [|b|n|p|items|fields]; simpl; try done.
  intros Hfile. unfold existsSync.
  rewrite bool_decide_eq_false_2 by (rewrite Hfile; by intros [? ?]).
  simpl. repeat split. eexists. split; [reflexivity|].
  by simplify_map_eq.
Qed.

End Proxy.

(** ** The proxy on a sample request *)

Lemma makeRequest_request_witness :
  exists sent,
    (makeRequest echoTarget "http://localhost:7098/api/open/runFlow"
       {| Options.method := None; Options.headers := None;
          Options.data := Some (JStr "") |}).2 = [sent] /\
    secure sent = false /\
    RequestOptions.port (requestOptions sent) = PortText "7098" /\
    RequestOptions.method (requestOptions sent) = "POST" /\
    written sent = None.
Proof.
  eexists. split; [reflexivity|].
  destruct (makeRequest_request echoTarget
              "http://localhost:7098/api/open/runFlow"
              {| Options.method := None; Options.headers := None;
                 Options.data := Some (JStr "") |}
              {| URL.protocol := "http:"; URL.hostname := "localhost";
                 URL.port := "7098"; URL.pathname := "/api/open/runFlow";
                 URL.search := "" |}
              _ eq_refl eq_refl)
    as (Hsecure & _ & _ & Hport & _ & _ & Hmethod & Hwritten).
  split; [exact Hsecure|]. split; [by apply Hport|].
  split; [apply Hmethod; by left | exact Hwritten].
Defined.

Lemma runFlow_missing_parameter_witness :
  exists seen parameter rest,
    ["dataPath"; "hostPre"; "host"] = (seen ++ parameter :: rest)%list /\
    Forall (fun p => is_Some (whenTruthy (delete "hostPre" sampleBody !! p)))
      seen /\
    whenTruthy (delete "hostPre" sampleBody !! parameter) = None /\
    forall (node' : Node) (net' : Network) (d' : gmap string string),
      runFlow node' net' (delete "hostPre" sampleBody) d' =
      (missingParameter parameter, []).
Proof.
  apply (runFlow_missing_parameter (delete "hostPre" sampleBody)).
  right. left. by_evaluation.
Defined.

Lemma runFlow_sends_one_request_witness :
  exists sent,
    (runFlow sampleNode echoTarget sampleBody sampleDisk).2 = [sent] /\
    RequestOptions.method (requestOptions sent) = "POST" /\
    RequestOptions.hostname (requestOptions sent) = "localhost" /\
    RequestOptions.path (requestOptions sent) = "/api/open/runFlow" /\
    RequestOptions.headers (requestOptions sent) !! "Host" =
      Some (JStr "localhost") /\
    RequestOptions.headers (requestOptions sent) !! "Content-Type" =
      Some (JStr "application/json") /\
    written sent =
      Some (JSON_stringify echoTarget
              (JObj (forwardData sampleBody (JStr "data.js")
                       (JStr "localhost") "module.exports = {}"))).
Proof.
  apply (runFlow_sends_one_request sampleNode echoTarget sampleBody sampleDisk
           "data.js" (JStr "http://localhost:7098") (JStr "localhost")
           "module.exports = {}"
           {| URL.protocol := "http:"; URL.hostname := "localhost";
              URL.port := "7098"; URL.pathname := "/api/open/runFlow";
              URL.search := "" |}).
  - by_evaluation.
  - discriminate.
  - by_evaluation.
  - by_evaluation.
  - by_evaluation.
  - reflexivity.
Defined.

Lemma runFlow_ok_is_relayed_witness :
  exists sent data,
    (runFlow sampleNode echoTarget sampleBody sampleDisk).2 = [sent] /\
    request echoTarget sent = Return data /\
    payload (runFlow sampleNode echoTarget sampleBody sampleDisk).1 <> JNull /\
    (JSON_parse echoTarget data =
       Return (payload (runFlow sampleNode echoTarget sampleBody sampleDisk).1)
     \/
     (exists message, JSON_parse echoTarget data = Throw message) /\
     payload (runFlow sampleNode echoTarget sampleBody sampleDisk).1 =
       JObj {[ "rawData" := JStr data ]}).
Proof.
  apply (runFlow_ok_is_relayed sampleNode echoTarget sampleBody sampleDisk).
  by_evaluation.
Defined.

Lemma runFlow_null_answer_witness :
  (runFlow sampleNode nullTarget sampleBody sampleDisk).1 =
    internalServerError "Cannot read properties of null (reading 'code')" /\
  length (runFlow sampleNode nullTarget sampleBody sampleDisk).2 = 1.
Proof.
  apply (runFlow_null_answer sampleNode nullTarget sampleBody sampleDisk
           "data.js" (JStr "http://localhost:7098") (JStr "localhost")
           "module.exports = {}"
           {| URL.protocol := "http:"; URL.hostname := "localhost";
              URL.port := "7098"; URL.pathname := "/api/open/runFlow";
              URL.search := "" |}
           "null").
  - by_evaluation.
  - discriminate.
  - by_evaluation.
  - by_evaluation.
  - by_evaluation.
  - reflexivity.
  - reflexivity.
  - reflexivity.
Defined.

Lemma runFlow_target_error_witness :
  (runFlow sampleNode deadTarget sampleBody sampleDisk).1 =
    internalServerError "connect ECONNREFUSED".
Proof.
  apply (runFlow_target_error sampleNode deadTarget sampleBody sampleDisk
           "data.js" (JStr "http://localhost:7098") (JStr "localhost")
           "module.exports = {}"
           {| URL.protocol := "http:"; URL.hostname := "localhost";
              URL.port := "7098"; URL.pathname := "/api/open/runFlow";
              URL.search := "" |}).
  - by_evaluation.
  - discriminate.
  - by_evaluation.
  - by_evaluation.
  - by_evaluation.
  - reflexivity.
  - reflexivity.
Defined.

Lemma runFlow_bad_path_witness :
  (runFlow sampleNode echoTarget sampleBody ∅).2 = [] /\
  code (runFlow sampleNode echoTarget sampleBody ∅).1 = 400 /\
  exists fields,
    payload (runFlow sampleNode echoTarget sampleBody ∅).1 = JObj fields /\
    fields !! "error" = Some (JStr "File not found") /\
    fields !! "path" = Some (JStr "/srv/data.js").
Proof.
  apply (runFlow_bad_path sampleNode echoTarget sampleBody ∅
           (JStr "data.js") (JStr "http://localhost:7098") (JStr "localhost")).
  - by_evaluation.
  - by_evaluation.
  - by_evaluation.
  - reflexivity.
Defined.

(** * What the mapper allocates *)

Section StoreFresh.

Context (materialsConfig : MaterialsConfig).

Implicit Types (h : heap) (headers : list string) (row : list value).
Implicit Types (rows : list (list value)) (item : record).

Lemma bind_inv {A B} (m : Exec A) (f : A -> Exec B) h b h' :
  (m ≫= f) h = Some (b, h') ->
  exists a h1, m h = Some (a, h1) /\ f a h1 = Some (b, h').
Proof.
  unfold mbind, Exec_bind. destruct (m h) as [[a h1]|]; [|done].
  intros Hf. by exists a, h1.
Qed.

(** The references that the loop of [.map] returns are all to objects
    that were not in the store before. *)
Lemma mapFrom_rows_new h a hs headers (seen todo : list loc) rows vs h' :
  holdsHeaders h hs headers ->
  h !! a = Some (ArrayObj (Ref <$> (seen ++ todo)%list)) ->
  Forall2 (holdsRow h) todo rows ->
  mapFrom (mapRowExec materialsConfig hs) a (length seen) (length todo) h =
    Some (vs, h') ->
  Forall (fun v => exists l, v = Ref l /\ h !! l = None) vs.
Proof.
  revert h seen rows vs.
  induction todo as [|r todo IH]; intros h seen rows vs Hhs Ha Hrows Hrun.
  - simpl in Hrun. injection Hrun as <- <-. constructor.
  - apply Forall2_cons_inv_l in Hrows as (row & rows' & Hr & Hrows & ->).
    simpl in Hrun.
    rewrite (bind_run _ _ _ _ _
               (index_refs h a _ (length seen) r Ha
                  (list_lookup_middle seen todo r _ eq_refl))) in Hrun.
    rewrite (bind_run _ _ _ _ _
               (mapRowExec_run materialsConfig h hs headers r row Hhs Hr))
      in Hrun.
    apply bind_inv in Hrun as (vs' & h2 & Hrest & Hret).
    injection Hret as <- <-.
    assert (h ⊆ <[fresh (dom h) :=
                    PlainObj (Prim <$> mapRow materialsConfig headers row)]> h)
      as Hsub by apply alloc_extends.
    constructor.
    + eexists. split; [done | apply alloc_fresh].
    + replace (S (length seen)) with (length (seen ++ [r])%list) in Hrest
        by (rewrite length_app; simpl; lia).
      eapply Forall_impl.
      * eapply (IH _ (seen ++ [r])%list rows'); [| | |exact Hrest].
        -- by eapply holdsHeaders_mono.
        -- rewrite <- app_assoc. by eapply lookup_weaken.
        -- eapply Forall2_impl; [done|]. intros r' row'.
           by apply holdsRow_mono.
      * intros v (l & -> & Hl). exists l. split; [done|].
        by eapply lookup_weaken_None.
Qed.

(** The loop of [.filter] returns elements of the array it reads. *)
Lemma filterFrom_records_kept h a (seen todo : list loc) items vs h' :
  h !! a = Some (ArrayObj (Ref <$> (seen ++ todo)%list)) ->
  Forall2 (holdsRecord h) todo items ->
  filterFrom retainedExec a (length seen) (length todo) h = Some (vs, h') ->
  Forall (fun v => exists l, v = Ref l /\ l ∈ todo) vs.
Proof.
  revert seen items vs h'.
  induction todo as [|o todo IH]; intros seen items vs h' Ha Hitems Hrun.
  - simpl in Hrun. injection Hrun as <- <-. constructor.
  - apply Forall2_cons_inv_l in Hitems as (item & items' & Ho & Hitems & ->).
    simpl in Hrun.
    rewrite (bind_run _ _ _ _ _
               (index_refs h a _ (length seen) o Ha
                  (list_lookup_middle seen todo o _ eq_refl))) in Hrun.
    rewrite (bind_run _ _ _ _ _ (retainedExec_run h o item Ho)) in Hrun.
    apply bind_inv in Hrun as (vs' & h2 & Hrest & Hret).
    replace (S (length seen)) with (length (seen ++ [o])%list) in Hrest
      by (rewrite length_app; simpl; lia).
    assert (Forall (fun v => exists l, v = Ref l /\ l ∈ o :: todo) vs') as Hvs'.
    { eapply Forall_impl.
      - eapply (IH (seen ++ [o])%list items'); [|done|exact Hrest].
        by rewrite <- app_assoc.
      - intros v (l & -> & Hl). exists l. split; [done|].
        by apply list_elem_of_further. }
    destruct (retained item); injection Hret as <- <-; [|done].
    constructor; [|done].
    exists o. split; [done | apply list_elem_of_here].
Qed.

(** X21: the array that the mapper returns and the records it holds are
    all new objects: none of them was in the store before the invocation,
    so the result never shares an object with the inputs or with the result
    of an earlier invocation. *)
Theorem mappedDataExec_allocates h hs rs headers rows out h' :
  holdsHeaders h hs headers -> holdsRows h rs rows ->
  mappedDataExec materialsConfig hs rs h = Some (out, h') ->
  h !! out = None /\
  exists ls : list loc,
    h' !! out = Some (ArrayObj (Ref <$> ls)) /\
    Forall (fun l => h !! l = None) ls.
Proof.
  intros Hhs (ls & Hrs & Hrows) Hrun. unfold mappedDataExec in Hrun.
  (* rows.slice(0, 10) *)
  apply bind_inv in Hrun as (sliced & h1 & Hslice & Hrun).
  unfold slice0 in Hslice. rewrite Hrs in Hslice.
  unfold alloc in Hslice. injection Hslice as <- <-.
  set (sliced := fresh (dom h)) in *.
  set (h1 := <[sliced := _]> h) in *.
  assert (h ⊆ h1) as Hsub1 by apply alloc_extends.
  assert (h1 !! sliced = Some (ArrayObj (Ref <$> ([] ++ take 10 ls)%list)))
    as Hsliced.
  { unfold h1. rewrite lookup_insert_eq. by rewrite <- fmap_take. }
  assert (Forall2 (holdsRow h1) (take 10 ls) (take 10 rows)) as Hrows1.
  { apply Forall2_take. eapply Forall2_impl; [done|].
    intros r row. by apply holdsRow_mono. }
  (* .map(...) *)
  apply bind_inv in Hrun as (mapped & h3 & HarrayMap & Hrun).
  unfold arrayMap in HarrayMap.
  rewrite (bind_run _ _ _ _ _ (lengthOf_refs h1 sliced _ Hsliced))
    in HarrayMap.
  apply bind_inv in HarrayMap as (vs & h2 & Hmap & Halloc).
  destruct (mapFrom_rows materialsConfig h1 sliced hs headers []
              (take 10 ls) (take 10 rows)
              (holdsHeaders_mono _ _ _ _ Hsub1 Hhs) Hsliced Hrows1)
    as (os & h2' & Hmap' & Hsub2 & Hrecs).
  simpl in Hmap, Hmap'. rewrite Hmap in Hmap'. injection Hmap' as -> <-.
  pose proof (mapFrom_rows_new h1 sliced hs headers [] (take 10 ls)
                (take 10 rows) _ _
                (holdsHeaders_mono _ _ _ _ Hsub1 Hhs) Hsliced Hrows1 Hmap)
    as Hnew.
  unfold alloc in Halloc. injection Halloc as <- <-.
  set (mapped := fresh (dom h2)) in *.
  set (h3 := <[mapped := _]> h2) in *.
  assert (h2 ⊆ h3) as Hsub3 by apply alloc_extends.
  assert (h3 !! mapped = Some (ArrayObj (Ref <$> ([] ++ os)%list)))
    as Hmapped by (unfold h3; by rewrite lookup_insert_eq).
  assert (Forall2 (holdsRecord h3) os
            (map (mapRow materialsConfig headers) (take 10 rows))) as Hrecs3.
  { eapply Forall2_impl; [done|]. intros o item. by apply holdsRecord_mono. }
  (* .filter(...) *)
  unfold arrayFilter in Hrun.
  rewrite (bind_run _ _ _ _ _ (lengthOf_refs h3 mapped _ Hmapped)) in Hrun.
  apply bind_inv in Hrun as (ws & h4 & Hfilter & Halloc).
  destruct (filterFrom_records h3 mapped [] os _ Hmapped Hrecs3)
    as (kept & Hfilter' & _).
  simpl in Hfilter, Hfilter'. rewrite Hfilter in Hfilter'.
  injection Hfilter' as -> ->.
  pose proof (filterFrom_records_kept h3 mapped [] os _ _ _
                Hmapped Hrecs3 Hfilter) as Hkept.
  unfold alloc in Halloc. injection Halloc as <- <-.
  assert (h ⊆ h3) as Hsub.
  { transitivity h1; [done|]. by transitivity h2. }
  split; [|exists kept; split].
  - eapply lookup_weaken_None; [apply alloc_fresh | done].
  - by rewrite lookup_insert_eq.
  - apply Forall_forall. intros l Hl.
    rewrite Forall_fmap, Forall_forall in Hkept.
    destruct (Hkept l Hl) as (l' & [= <-] & Hin).
    rewrite Forall_fmap, Forall_forall in Hnew.
    destruct (Hnew l Hin) as (l' & [= <-] & Hfresh).
    by eapply lookup_weaken_None.
Qed.

End StoreFresh.

Lemma mappedDataExec_allocates_witness :
  storeWithSheet !! 8%positive = None /\
  exists ls : list loc,
    <[8%positive := ArrayObj [Ref 5%positive; Ref 6%positive]]>
      (<[7%positive := ArrayObj [Ref 5%positive; Ref 6%positive]]>
      (<[6%positive := PlainObj (Prim <$> mapRow config ["采购价"; "税点"]
                                            [Num (lit 3); Str "4"])]>
      (<[5%positive := PlainObj (Prim <$> mapRow config ["采购价"; "税点"]
                                            [Num (lit 3); Str "4"])]>
      (<[4%positive := ArrayObj [Ref 3%positive; Ref 3%positive]]>
         storeWithSheet)))) !! 8%positive =
      Some (ArrayObj (Ref <$> ls)) /\
    Forall (fun l => storeWithSheet !! l = None) ls.
Proof.
  apply (mappedDataExec_allocates config storeWithSheet 1%positive 2%positive
           ["采购价"; "税点"]
           [[Num (lit 3); Str "4"]; [Num (lit 3); Str "4"]]).
  - unfold holdsHeaders. by_evaluation.
  - exists [3%positive; 3%positive]. split; [by_evaluation|].
    repeat constructor; unfold holdsRow; by_evaluation.
  - by_evaluation.
Defined.
